(** * BasicBot: a facade over the Binance USDT-M futures API

    A shallow embedding of [basic_bot.py] (class [BasicBot]): the four input
    validators, the construction of a bot, the four order-placement
    operations and the two queries, with the response re-shaping each of
    them performs.

    Modelling choices, each following the source:
    - a Python [str] is a [string]; the case mapping and the whitespace table
      are Python's for the code points 0..127 (ASCII text), a character above
      127 is left alone by both;
    - a Python number is an unbounded integer ([Z]) or an IEEE-754 binary64
      float ([spec_float], with its infinities, signed zeros and NaN);
    - a [dict] is an insertion-ordered association list with unique keys,
      built by successive assignments, as a dict display is evaluated;
    - an exception is a value of [exn]; code that can raise lives in the
      monad [M], which also records the requests sent to the exchange client;
    - [datetime.now().isoformat()] is the clock reading [now], an argument of
      every operation; the exchange client is a record of functions, one per
      remote method, returning a payload or raising;
    - logging (to [logs/bot.log] and the console) never influences a returned
      value and is left out.

    The callers of the class follow it: [main] of [basic_bot.py] (module
    [Cli]) and the order form of [gui_bot.py] (module [Gui]). *)

From Stdlib Require Import Bool Arith ZArith Lia List Ascii String.
From Stdlib Require Import SpecFloat.
Import ListNotations.

Local Open Scope string_scope.
Local Open Scope nat_scope.

(** ** Python strings *)

Module PyStr.

(** [str.isspace] on one ASCII character: 0x09..0x0D, 0x1C..0x1F, 0x20. *)
Definition is_space (c : ascii) : bool :=
  let n := nat_of_ascii c in
  ((9 <=? n) && (n <=? 13)) || ((28 <=? n) && (n <=? 31)) || (n =? 32).

(** [str.upper] on one ASCII character: a..z go to A..Z. *)
Definition upper_char (c : ascii) : ascii :=
  let n := nat_of_ascii c in
  if (97 <=? n) && (n <=? 122) then ascii_of_nat (n - 32) else c.

(** [s.upper()] *)
Fixpoint upper (s : string) : string :=
  match s with
  | EmptyString => EmptyString
  | String c s' => String (upper_char c) (upper s')
  end.

(** [s.lstrip()] *)
Fixpoint lstrip (s : string) : string :=
  match s with
  | EmptyString => EmptyString
  | String c s' => if is_space c then lstrip s' else s
  end.

(** [s.rstrip()] *)
Fixpoint rstrip (s : string) : string :=
  match s with
  | EmptyString => EmptyString
  | String c s' =>
      match rstrip s' with
      | EmptyString => if is_space c then EmptyString else String c EmptyString
      | r => String c r
      end
  end.

(** [s.strip()]: whitespace removed at both ends. *)
Definition strip (s : string) : string := rstrip (lstrip s).

(** [s.endswith(suffix)]: [s] is at least as long as [suffix] and its last
    [len(suffix)] characters are [suffix]. *)
Definition endswith (s suffix : string) : bool :=
  let n := String.length s in
  let k := String.length suffix in
  (k <=? n) && String.eqb (substring (n - k) k s) suffix.

(** Truth value of a [str]: the empty string is false. *)
Definition truthy (s : string) : bool :=
  match s with EmptyString => false | _ => true end.

End PyStr.

(** ** Python numbers *)

Module PyNum.

Inductive number : Type :=
| NInt (z : Z)
| NFloat (f : spec_float).

(** [x <= 0]: an [int] is compared exactly, a [float] by the IEEE
    comparison, under which NaN is unordered. *)
Definition le_zero (x : number) : bool :=
  match x with
  | NInt z => (z <=? 0)%Z
  | NFloat f => SFleb f (S754_zero false)
  end.

(** [x > 0] *)
Definition gt_zero (x : number) : bool :=
  match x with
  | NInt z => (0 <? z)%Z
  | NFloat f => SFltb (S754_zero false) f
  end.

(** [x < 0] *)
Definition lt_zero (x : number) : bool :=
  match x with
  | NInt z => (z <? 0)%Z
  | NFloat f => SFltb f (S754_zero false)
  end.

(** [x == 0] *)
Definition eq_zero (x : number) : bool :=
  match x with
  | NInt z => (z =? 0)%Z
  | NFloat f => SFeqb f (S754_zero false)
  end.

Definition is_nan (x : number) : bool :=
  match x with
  | NFloat S754_nan => true
  | _ => false
  end.

(** The float literal [0.001]: 0x1.0624dd2f1a9fcp-10. *)
Definition f_0_001 : spec_float := S754_finite false 4611686018427388 (-62).

(** The smallest positive binary64 value, 5e-324. *)
Definition f_min_subnormal : spec_float := S754_finite false 1 (-1074).

(** [float('nan')] *)
Definition nan : number := NFloat S754_nan.

End PyNum.

(** ** Python values and dicts *)

Module PyVal.
Import PyNum.

#[warnings="-register-all"] Inductive value : Type :=
| VNone
| VStr (s : string)
| VInt (z : Z)
| VFloat (f : spec_float)
| VList (l : list value)
| VDict (d : list (string * value)).

(** A dict with [str] keys, in insertion order, every key at most once. *)
Definition dict : Type := list (string * value).

Definition of_number (x : number) : value :=
  match x with
  | NInt z => VInt z
  | NFloat f => VFloat f
  end.

(** [d[k] = v]: an existing key keeps its place and takes the new value, a
    new key goes to the end. *)
Fixpoint dict_set (k : string) (v : value) (d : dict) : dict :=
  match d with
  | [] => [(k, v)]
  | (k', v') :: d' =>
      if String.eqb k k' then (k, v) :: d' else (k', v') :: dict_set k v d'
  end.

(** A dict display [{k1: v1, ..., kn: vn}]: the items are stored from left
    to right, so a key written twice ends with its last value. *)
Definition dict_display (items : list (string * value)) : dict :=
  fold_left (fun d kv => dict_set (fst kv) (snd kv) d) items [].

(** [d[k]], [None] standing for [KeyError]. *)
Fixpoint lookup (k : string) (d : dict) : option value :=
  match d with
  | [] => None
  | (k', v) :: d' => if String.eqb k k' then Some v else lookup k d'
  end.

(** [d.get(k, default)] *)
Definition get (d : dict) (k : string) (default : value) : value :=
  match lookup k d with
  | Some v => v
  | None => default
  end.

(** [d] without the key [k]. *)
Fixpoint remove (k : string) (d : dict) : dict :=
  match d with
  | [] => []
  | (k', v) :: d' =>
      if String.eqb k k' then remove k d' else (k', v) :: remove k d'
  end.

(** [list(d.keys())] *)
Definition keys (d : dict) : list string := map fst d.

End PyVal.

(** ** Exceptions and the monad of the operations *)

Module PyExc.
Import PyVal.

Inductive exn_class : Type :=
| ValueError
| AttributeError
| BinanceAPIException
| BinanceOrderException
| OtherException.

(** An exception object: its class and [str(e)]. Every class here derives
    from [Exception]. *)
Record exn : Type := mk_exn { exn_cls : exn_class; exn_str : string }.

Inductive Exc (A : Type) : Type :=
| Ok (a : A)
| Raise (e : exn).
Arguments Ok {A} a.
Arguments Raise {A} e.

(** A call of a method of the exchange client with its keyword arguments. *)
Record request : Type := Request { req_method : string; req_kwargs : dict }.

Definition trace : Type := list request.

(** A computation that returns or raises, and the requests it has sent. *)
Definition M (A : Type) : Type := (Exc A * trace)%type.

Definition ret {A} (a : A) : M A := (Ok a, []).

Definition raise {A} (c : exn_class) (msg : string) : M A :=
  (Raise (mk_exn c msg), []).

Definition lift {A} (x : Exc A) : M A := (x, []).

Definition bind {A B} (m : M A) (k : A -> M B) : M B :=
  match m with
  | (Ok a, t) => let (r, t') := k a in (r, (t ++ t')%list)
  | (Raise e, t) => (Raise e, t)
  end.

(** [isinstance(e, classes)] *)
Definition isinstance (e : exn) (classes : list exn_class) : bool :=
  existsb (fun c =>
    match exn_cls e, c with
    | ValueError, ValueError
    | AttributeError, AttributeError
    | BinanceAPIException, BinanceAPIException
    | BinanceOrderException, BinanceOrderException
    | OtherException, OtherException => true
    | _, _ => false
    end) classes.

End PyExc.

Declare Scope py_scope.
Delimit Scope py_scope with py.
Notation "x <- c ;; k" := (PyExc.bind c (fun x => k))
  (at level 61, c at next level, right associativity) : py_scope.

(** ** The bot *)

Module BasicBot.
Import PyStr PyNum PyVal PyExc.
Local Open Scope py_scope.

(** The exchange client ([binance.client.Client]): each remote method maps
    its keyword arguments to the decoded payload, or raises. *)
Record Client : Type := {
  futures_create_order : dict -> Exc dict;
  futures_create_oco_order : dict -> Exc dict;
  futures_get_order : dict -> Exc dict;
  futures_account : dict -> Exc dict
}.

(** The attributes of a [BasicBot] instance. *)
Record BasicBot : Type := {
  demo : bool;
  api_key : option string;
  api_secret : option string;
  client : option Client
}.

(** Truth value of an optional [str]: [None] and [''] are false. *)
Definition truthy_opt (o : option string) : bool :=
  match o with
  | None => false
  | Some s => truthy s
  end.

(** [a or b] *)
Definition py_or (a b : option string) : option string :=
  if truthy_opt a then a else b.

Definition credentials_message : string :=
  "API credentials are required. Set BINANCE_API_KEY and BINANCE_API_SECRET environment variables or pass them as parameters.".

(** [BasicBot.__init__]. [getenv] is [os.getenv] once [load_dotenv()] has
    run; [new_client key secret] is the call
    [Client(api_key=key, api_secret=secret, testnet=True, base_url=...)],
    which returns the client or raises. *)
Definition __init__ (getenv : string -> option string)
    (new_client : option string -> option string -> Exc Client)
    (api_key api_secret : option string) (demo : bool) : Exc BasicBot :=
  if demo then
    Ok {| demo := demo; api_key := None; api_secret := None; client := None |}
  else
    let api_key := py_or api_key (getenv "BINANCE_API_KEY") in
    let api_secret := py_or api_secret (getenv "BINANCE_API_SECRET") in
    if negb (truthy_opt api_key) || negb (truthy_opt api_secret) then
      Raise (mk_exn ValueError credentials_message)
    else
      match new_client api_key api_secret with
      | Ok c =>
          Ok {| demo := demo; api_key := api_key;
                api_secret := api_secret; client := Some c |}
      | Raise e => Raise e
      end.

(** [_validate_symbol] *)
Definition _validate_symbol (symbol : string) : Exc string :=
  if negb (truthy symbol) then
    Raise (mk_exn ValueError "Symbol cannot be empty")
  else
    let symbol := strip (upper symbol) in
    if negb (endswith symbol "USDT") then
      Raise (mk_exn ValueError "Symbol must end with USDT for USDT-M Futures")
    else Ok symbol.

(** [_validate_quantity] *)
Definition _validate_quantity (quantity : number) : Exc number :=
  if le_zero quantity then
    Raise (mk_exn ValueError "Quantity must be greater than 0")
  else Ok quantity.

(** [_validate_price] *)
Definition _validate_price (price : number) : Exc number :=
  if le_zero price then
    Raise (mk_exn ValueError "Price must be greater than 0")
  else Ok price.

(** [_validate_side] *)
Definition _validate_side (side : string) : Exc string :=
  let side := strip (upper side) in
  if negb (existsb (String.eqb side) ["BUY"; "SELL"]) then
    Raise (mk_exn ValueError "Side must be either 'BUY' or 'SELL'")
  else Ok side.

(** A call [self.client.name(...)] with keyword arguments [kwargs]: the
    attribute access fails on [None]. *)
Definition call_client (self : BasicBot) (name : string)
    (method : Client -> dict -> Exc dict) (kwargs : dict) : M dict :=
  match client self with
  | None =>
      raise AttributeError
        (String.append "'NoneType' object has no attribute '"
           (String.append name "'"))
  | Some c => (method c kwargs, [Request name kwargs])
  end.

(** The dict both kinds of [except] clause return. *)
Definition error_result (e : exn) (now : string) : dict :=
  dict_display
    [ ("status", VStr "ERROR");
      ("error", VStr (exn_str e));
      ("timestamp", VStr now) ].

(** [try: body / except (BinanceAPIException, BinanceOrderException) as e:
    ... / except Exception as e: ...] *)
Definition try_except (now : string) (body : M dict) : dict * trace :=
  match body with
  | (Ok d, t) => (d, t)
  | (Raise e, t) =>
      if isinstance e [BinanceAPIException; BinanceOrderException] then
        (error_result e now, t)
      else (error_result e now, t)
  end.

(** [try: body / except Exception as e: ...] *)
Definition try_except_all (now : string) (body : M dict) : dict * trace :=
  match body with
  | (Ok d, t) => (d, t)
  | (Raise e, t) => (error_result e now, t)
  end.

(** [place_market_order] *)
Definition place_market_order (self : BasicBot) (now : string)
    (symbol side : string) (quantity : number) : dict * trace :=
  try_except now
    (symbol <- lift (_validate_symbol symbol) ;;
     side <- lift (_validate_side side) ;;
     quantity <- lift (_validate_quantity quantity) ;;
     response <-
       (if demo self then
          ret (dict_display
                 [ ("orderId", VInt 123456);
                   ("clientOrderId", VStr "demo123");
                   ("avgPrice", VStr "50000.00");
                   ("status", VStr "FILLED") ])
        else
          let params := dict_display
                 [ ("symbol", VStr symbol);
                   ("side", VStr side);
                   ("type", VStr "MARKET");
                   ("quantity", of_number quantity) ] in
          call_client self "futures_create_order" futures_create_order params) ;;
     ret (dict_display
            [ ("status", VStr "SUCCESS");
              ("order_type", VStr "MARKET");
              ("symbol", VStr symbol);
              ("side", VStr side);
              ("quantity", of_number quantity);
              ("order_id", get response "orderId" VNone);
              ("client_order_id", get response "clientOrderId" VNone);
              ("price", get response "avgPrice" (VStr "N/A"));
              ("status", get response "status" VNone);
              ("timestamp", VStr now);
              ("raw_response", VDict response) ])).

(** [place_limit_order] *)
Definition place_limit_order (self : BasicBot) (now : string)
    (symbol side : string) (quantity price : number) : dict * trace :=
  try_except now
    (symbol <- lift (_validate_symbol symbol) ;;
     side <- lift (_validate_side side) ;;
     quantity <- lift (_validate_quantity quantity) ;;
     price <- lift (_validate_price price) ;;
     response <-
       (if demo self then
          ret (dict_display
                 [ ("orderId", VInt 234567);
                   ("clientOrderId", VStr "demoLimit");
                   ("status", VStr "NEW") ])
        else
          let params := dict_display
                 [ ("symbol", VStr symbol);
                   ("side", VStr side);
                   ("type", VStr "LIMIT");
                   ("timeInForce", VStr "GTC");
                   ("quantity", of_number quantity);
                   ("price", of_number price) ] in
          call_client self "futures_create_order" futures_create_order params) ;;
     ret (dict_display
            [ ("status", VStr "SUCCESS");
              ("order_type", VStr "LIMIT");
              ("symbol", VStr symbol);
              ("side", VStr side);
              ("quantity", of_number quantity);
              ("price", of_number price);
              ("order_id", get response "orderId" VNone);
              ("client_order_id", get response "clientOrderId" VNone);
              ("status", get response "status" VNone);
              ("timestamp", VStr now);
              ("raw_response", VDict response) ])).

(** [place_stop_market_order] *)
Definition place_stop_market_order (self : BasicBot) (now : string)
    (symbol side : string) (quantity stop_price : number) : dict * trace :=
  try_except now
    (symbol <- lift (_validate_symbol symbol) ;;
     side <- lift (_validate_side side) ;;
     quantity <- lift (_validate_quantity quantity) ;;
     stop_price <- lift (_validate_price stop_price) ;;
     response <-
       (if demo self then
          ret (dict_display
                 [ ("orderId", VInt 345678);
                   ("clientOrderId", VStr "demoStop");
                   ("status", VStr "NEW") ])
        else
          let params := dict_display
                 [ ("symbol", VStr symbol);
                   ("side", VStr side);
                   ("type", VStr "STOP_MARKET");
                   ("quantity", of_number quantity);
                   ("stopPrice", of_number stop_price) ] in
          call_client self "futures_create_order" futures_create_order params) ;;
     ret (dict_display
            [ ("status", VStr "SUCCESS");
              ("order_type", VStr "STOP_MARKET");
              ("symbol", VStr symbol);
              ("side", VStr side);
              ("quantity", of_number quantity);
              ("stop_price", of_number stop_price);
              ("order_id", get response "orderId" VNone);
              ("client_order_id", get response "clientOrderId" VNone);
              ("status", get response "status" VNone);
              ("timestamp", VStr now);
              ("raw_response", VDict response) ])).

(** The canned account record of the demo mode. *)
Definition demo_account : dict :=
  dict_display
    [ ("totalWalletBalance", VStr "10000.00");
      ("totalUnrealizedProfit", VStr "0.00");
      ("assets",
        VList [ VDict (dict_display
                  [ ("asset", VStr "USDT");
                    ("walletBalance", VStr "10000.00");
                    ("unrealizedProfit", VStr "0.00") ]) ]) ].

(** [get_account_info] *)
Definition get_account_info (self : BasicBot) (now : string) : dict * trace :=
  try_except_all now
    (if demo self then
       let response := demo_account in
       ret (dict_display
              [ ("status", VStr "SUCCESS");
                ("account_info", VDict response);
                ("timestamp", VStr now) ])
     else
       response <- call_client self "futures_account" futures_account [] ;;
       ret (dict_display
              [ ("status", VStr "SUCCESS");
                ("account_info", VDict response);
                ("timestamp", VStr now) ])).

(** [place_oco_order] *)
Definition place_oco_order (self : BasicBot) (now : string)
    (symbol side : string)
    (quantity limit_price stop_price stop_limit_price : number)
    : dict * trace :=
  try_except now
    (symbol <- lift (_validate_symbol symbol) ;;
     side <- lift (_validate_side side) ;;
     quantity <- lift (_validate_quantity quantity) ;;
     limit_price <- lift (_validate_price limit_price) ;;
     stop_price <- lift (_validate_price stop_price) ;;
     stop_limit_price <- lift (_validate_price stop_limit_price) ;;
     response <-
       (if demo self then
          ret (dict_display
                 [ ("orderListId", VInt 456789);
                   ("contingencyType", VStr "OCO");
                   ("listStatusType", VStr "RESPONSE");
                   ("listOrderStatus", VStr "EXEC_STARTED");
                   ("listClientOrderId", VStr "demoOCO") ])
        else
          let params := dict_display
                 [ ("symbol", VStr symbol);
                   ("side", VStr side);
                   ("quantity", of_number quantity);
                   ("price", of_number limit_price);
                   ("stopPrice", of_number stop_price);
                   ("stopLimitPrice", of_number stop_limit_price);
                   ("stopLimitTimeInForce", VStr "GTC") ] in
          call_client self "futures_create_oco_order"
            futures_create_oco_order params) ;;
     ret (dict_display
            [ ("status", VStr "SUCCESS");
              ("order_type", VStr "OCO");
              ("symbol", VStr symbol);
              ("side", VStr side);
              ("quantity", of_number quantity);
              ("limit_price", of_number limit_price);
              ("stop_price", of_number stop_price);
              ("stop_limit_price", of_number stop_limit_price);
              ("order_list_id", get response "orderListId" VNone);
              ("contingency_type", get response "contingencyType" VNone);
              ("list_status_type", get response "listStatusType" VNone);
              ("list_order_status", get response "listOrderStatus" VNone);
              ("timestamp", VStr now);
              ("raw_response", VDict response) ])).

(** [get_order_status]; [order_id] is any Python value. *)
Definition get_order_status (self : BasicBot) (now : string)
    (symbol : string) (order_id : value) : dict * trace :=
  try_except_all now
    (symbol <- lift (_validate_symbol symbol) ;;
     response <-
       (if demo self then
          ret (dict_display
                 [ ("orderId", order_id);
                   ("symbol", VStr symbol);
                   ("status", VStr "FILLED");
                   ("price", VStr "50000.00");
                   ("avgPrice", VStr "50000.00");
                   ("executedQty", VStr "0.001") ])
        else
          call_client self "futures_get_order" futures_get_order
            (dict_display [ ("symbol", VStr symbol); ("orderId", order_id) ])) ;;
     ret (dict_display
            [ ("status", VStr "SUCCESS");
              ("order_status", VDict response);
              ("timestamp", VStr now) ])).

(** A bot as [BasicBot(demo=True)] builds it. *)
Definition demo_bot : BasicBot :=
  {| demo := true; api_key := None; api_secret := None; client := None |}.

End BasicBot.


(** ** The specification's vocabulary *)

Module Spec.
Import PyStr PyNum PyVal PyExc BasicBot.

(** "Trimming and uppercasing [s]": trimmed first, then put in upper case. *)
Definition trimmed_upper (s : string) : string := upper (strip s).

(** [t] ends in [suffix]. *)
Definition ends_in (t suffix : string) : Prop :=
  exists p : string, t = String.append p suffix.

(** No credential: neither the parameter nor the environment variable holds
    a non-empty string. *)
Definition missing (parameter variable : option string) : Prop :=
  truthy_opt parameter = false /\ truthy_opt variable = false.

(** The field [k] of a result. *)
Definition field (k : string) (r : dict * trace) : option value :=
  lookup k (fst r).

(** The requests an operation sent to the exchange client. *)
Definition sent (r : dict * trace) : trace := snd r.

(** A result without its capture time. *)
Definition untimed (r : dict * trace) : dict * trace :=
  (remove "timestamp" (fst r), snd r).

(** The keyword arguments [place_oco_order] hands to the client. *)
Definition oco_params (sym sd : string) (q lp sp slp : number) : dict :=
  dict_display
    [ ("symbol", VStr sym);
      ("side", VStr sd);
      ("quantity", of_number q);
      ("price", of_number lp);
      ("stopPrice", of_number sp);
      ("stopLimitPrice", of_number slp);
      ("stopLimitTimeInForce", VStr "GTC") ].

(** The order record a demo bot answers [get_order_status] with. *)
Definition demo_order_record (sym : string) (order_id : value) : dict :=
  dict_display
    [ ("orderId", order_id);
      ("symbol", VStr sym);
      ("status", VStr "FILLED");
      ("price", VStr "50000.00");
      ("avgPrice", VStr "50000.00");
      ("executedQty", VStr "0.001") ].

End Spec.

(** ** The command line ([main] of [basic_bot.py]) *)

Module Cli.
Import PyStr PyNum PyVal PyExc BasicBot.

(** The namespace [parser.parse_args()] returns: an option that was not given
    is [None], a [type=float] option holds a float, a [store_true] flag a
    bool. *)
Record Args : Type := {
  arg_api_key : option string;
  arg_api_secret : option string;
  arg_demo : bool;
  arg_symbol : option string;
  arg_side : option string;
  arg_order_type : option string;
  arg_quantity : option spec_float;
  arg_price : option spec_float;
  arg_stop_price : option spec_float;
  arg_limit_price : option spec_float;
  arg_stop_limit_price : option spec_float;
  arg_account_info : bool
}.

(** What [main] writes to standard output: a line of text, or
    [json.dumps(result, indent=2)] for a result dict. *)
Inductive printed : Type :=
| Text (s : string)
| Json (d : dict).

(** Truth value of an optional float: [None], [0.0] and [-0.0] are false,
    every other float (NaN too) is true. *)
Definition float_truthy (o : option spec_float) : bool :=
  match o with
  | None => false
  | Some (S754_zero _) => false
  | Some _ => true
  end.

Definition required_message : string :=
  "Error: symbol, side, order-type, and quantity are required for order placement".

(** [print(json.dumps(result, indent=2))] for the result of an operation. *)
Definition print_result (r : dict * trace) : list printed * trace :=
  ([Json (fst r)], snd r).

(** [main], from the parsed arguments on. *)
Definition main (getenv : string -> option string)
    (new_client : option string -> option string -> Exc Client)
    (now : string) (args : Args) : list printed * trace :=
  match __init__ getenv new_client (arg_api_key args) (arg_api_secret args)
          (arg_demo args) with
  | Raise e => ([Text (String.append "Error: " (exn_str e))], [])
  | Ok bot =>
      if arg_account_info args then print_result (get_account_info bot now)
      else
        match arg_symbol args, arg_side args, arg_order_type args,
              arg_quantity args with
        | Some symbol, Some side, Some order_type, Some quantity =>
            if negb (truthy symbol && truthy side && truthy order_type
                     && float_truthy (Some quantity)) then
              ([Text required_message], [])
            else if String.eqb order_type "MARKET" then
              print_result
                (place_market_order bot now symbol side (NFloat quantity))
            else if String.eqb order_type "LIMIT" then
              match arg_price args with
              | Some price =>
                  if negb (float_truthy (Some price)) then
                    ([Text "Error: price is required for LIMIT orders"], [])
                  else
                    print_result
                      (place_limit_order bot now symbol side (NFloat quantity)
                         (NFloat price))
              | None => ([Text "Error: price is required for LIMIT orders"], [])
              end
            else if String.eqb order_type "STOP_MARKET" then
              match arg_stop_price args with
              | Some stop_price =>
                  if negb (float_truthy (Some stop_price)) then
                    ([Text "Error: stop-price is required for STOP_MARKET orders"], [])
                  else
                    print_result
                      (place_stop_market_order bot now symbol side
                         (NFloat quantity) (NFloat stop_price))
              | None =>
                  ([Text "Error: stop-price is required for STOP_MARKET orders"], [])
              end
            else if String.eqb order_type "OCO" then
              match arg_limit_price args, arg_stop_price args,
                    arg_stop_limit_price args with
              | Some limit_price, Some stop_price, Some stop_limit_price =>
                  if negb (float_truthy (Some limit_price)
                           && float_truthy (Some stop_price)
                           && float_truthy (Some stop_limit_price)) then
                    ([Text "Error: limit-price, stop-price, and stop-limit-price are required for OCO orders"], [])
                  else
                    print_result
                      (place_oco_order bot now symbol side (NFloat quantity)
                         (NFloat limit_price) (NFloat stop_price)
                         (NFloat stop_limit_price))
              | _, _, _ =>
                  ([Text "Error: limit-price, stop-price, and stop-limit-price are required for OCO orders"], [])
              end
            else
              ([Text (String.append "Error: Unsupported order type: " order_type)], [])
        | _, _, _, _ => ([Text required_message], [])
        end
  end.

End Cli.

(** ** Vocabulary for the properties of the operations *)

Module Shape.
Import PyStr PyNum PyVal PyExc BasicBot.

(** The exception a validator call ends in, if any. *)
Definition failure {A : Type} (x : Exc A) : option exn :=
  match x with
  | Ok _ => None
  | Raise e => Some e
  end.

(** The first failure among checks made in order. *)
Fixpoint first_failure (checks : list (option exn)) : option exn :=
  match checks with
  | [] => None
  | Some e :: _ => Some e
  | None :: rest => first_failure rest
  end.

(** The keys of an ERROR result, in order. *)
Definition error_keys : list string := ["status"; "error"; "timestamp"].

(** The keys of the result of a placed order, per operation, in order. *)
Definition market_keys : list string :=
  ["status"; "order_type"; "symbol"; "side"; "quantity"; "order_id";
   "client_order_id"; "price"; "timestamp"; "raw_response"].

Definition limit_keys : list string :=
  ["status"; "order_type"; "symbol"; "side"; "quantity"; "price"; "order_id";
   "client_order_id"; "timestamp"; "raw_response"].

Definition stop_market_keys : list string :=
  ["status"; "order_type"; "symbol"; "side"; "quantity"; "stop_price";
   "order_id"; "client_order_id"; "timestamp"; "raw_response"].

Definition oco_keys : list string :=
  ["status"; "order_type"; "symbol"; "side"; "quantity"; "limit_price";
   "stop_price"; "stop_limit_price"; "order_list_id"; "contingency_type";
   "list_status_type"; "list_order_status"; "timestamp"; "raw_response"].

(** The keyword arguments of the three [futures_create_order] requests. *)
Definition market_params (sym sd : string) (q : number) : dict :=
  dict_display
    [ ("symbol", VStr sym); ("side", VStr sd); ("type", VStr "MARKET");
      ("quantity", of_number q) ].

Definition limit_params (sym sd : string) (q p : number) : dict :=
  dict_display
    [ ("symbol", VStr sym); ("side", VStr sd); ("type", VStr "LIMIT");
      ("timeInForce", VStr "GTC"); ("quantity", of_number q);
      ("price", of_number p) ].

Definition stop_market_params (sym sd : string) (q p : number) : dict :=
  dict_display
    [ ("symbol", VStr sym); ("side", VStr sd); ("type", VStr "STOP_MARKET");
      ("quantity", of_number q); ("stopPrice", of_number p) ].

(** The keyword arguments of the [futures_get_order] request. *)
Definition order_query (sym : string) (order_id : value) : dict :=
  dict_display [ ("symbol", VStr sym); ("orderId", order_id) ].

(** The keys of the results of the two queries. *)
Definition order_status_keys : list string :=
  ["status"; "order_status"; "timestamp"].

Definition account_info_keys : list string :=
  ["status"; "account_info"; "timestamp"].

(** A call of one of the six operations, with its arguments. *)
Inductive call : Type :=
| Market (symbol side : string) (quantity : number)
| Limit (symbol side : string) (quantity price : number)
| StopMarket (symbol side : string) (quantity stop_price : number)
| Oco (symbol side : string)
    (quantity limit_price stop_price stop_limit_price : number)
| OrderStatus (symbol : string) (order_id : value)
| AccountInfo.

(** The call made on [self] at time [now]. *)
Definition run (self : BasicBot) (now : string) (c : call) : dict * trace :=
  match c with
  | Market symbol side q => place_market_order self now symbol side q
  | Limit symbol side q p => place_limit_order self now symbol side q p
  | StopMarket symbol side q p =>
      place_stop_market_order self now symbol side q p
  | Oco symbol side q lp sp slp =>
      place_oco_order self now symbol side q lp sp slp
  | OrderStatus symbol order_id => get_order_status self now symbol order_id
  | AccountInfo => get_account_info self now
  end.

(** The validator calls each operation starts with, in its order. *)
Definition checks (c : call) : list (option exn) :=
  match c with
  | Market symbol side q =>
      [failure (_validate_symbol symbol); failure (_validate_side side);
       failure (_validate_quantity q)]
  | Limit symbol side q p | StopMarket symbol side q p =>
      [failure (_validate_symbol symbol); failure (_validate_side side);
       failure (_validate_quantity q); failure (_validate_price p)]
  | Oco symbol side q lp sp slp =>
      [failure (_validate_symbol symbol); failure (_validate_side side);
       failure (_validate_quantity q); failure (_validate_price lp);
       failure (_validate_price sp); failure (_validate_price slp)]
  | OrderStatus symbol _ => [failure (_validate_symbol symbol)]
  | AccountInfo => []
  end.

(** The form the string validators bring their argument to. *)
Definition normal (s : string) : string := strip (upper s).

(** The request a live bot sends for a call that passed its checks. *)
Definition request_for (c : call) : request :=
  match c with
  | Market symbol side q =>
      Request "futures_create_order"
        (market_params (normal symbol) (normal side) q)
  | Limit symbol side q p =>
      Request "futures_create_order"
        (limit_params (normal symbol) (normal side) q p)
  | StopMarket symbol side q p =>
      Request "futures_create_order"
        (stop_market_params (normal symbol) (normal side) q p)
  | Oco symbol side q lp sp slp =>
      Request "futures_create_oco_order"
        (dict_display
           [ ("symbol", VStr (normal symbol));
             ("side", VStr (normal side));
             ("quantity", of_number q);
             ("price", of_number lp);
             ("stopPrice", of_number sp);
             ("stopLimitPrice", of_number slp);
             ("stopLimitTimeInForce", VStr "GTC") ])
  | OrderStatus symbol order_id =>
      Request "futures_get_order" (order_query (normal symbol) order_id)
  | AccountInfo => Request "futures_account" []
  end.

(** The answer of the client [cl] to the request of a call. *)
Definition answer (cl : Client) (c : call) : Exc dict :=
  let kwargs := req_kwargs (request_for c) in
  match c with
  | Market _ _ _ | Limit _ _ _ _ | StopMarket _ _ _ _ =>
      futures_create_order cl kwargs
  | Oco _ _ _ _ _ _ => futures_create_oco_order cl kwargs
  | OrderStatus _ _ => futures_get_order cl kwargs
  | AccountInfo => futures_account cl kwargs
  end.

(** The keys of the result of a call that went through. *)
Definition success_keys (c : call) : list string :=
  match c with
  | Market _ _ _ => market_keys
  | Limit _ _ _ _ => limit_keys
  | StopMarket _ _ _ _ => stop_market_keys
  | Oco _ _ _ _ _ _ => oco_keys
  | OrderStatus _ _ => order_status_keys
  | AccountInfo => account_info_keys
  end.

(** The key under which a result holds the payload of the backend. *)
Definition payload_key (c : call) : string :=
  match c with
  | OrderStatus _ _ => "order_status"
  | AccountInfo => "account_info"
  | _ => "raw_response"
  end.

(** The symbol, side and quantity of an order-placement call. *)
Definition intent (c : call) : option (string * string * number) :=
  match c with
  | Market symbol side q | Limit symbol side q _ | StopMarket symbol side q _
  | Oco symbol side q _ _ _ => Some (symbol, side, q)
  | OrderStatus _ _ | AccountInfo => None
  end.

(** The payload a demo bot makes up for a call. *)
Definition demo_payload (c : call) : dict :=
  match c with
  | Market _ _ _ =>
      dict_display
        [ ("orderId", VInt 123456); ("clientOrderId", VStr "demo123");
          ("avgPrice", VStr "50000.00"); ("status", VStr "FILLED") ]
  | Limit _ _ _ _ =>
      dict_display
        [ ("orderId", VInt 234567); ("clientOrderId", VStr "demoLimit");
          ("status", VStr "NEW") ]
  | StopMarket _ _ _ _ =>
      dict_display
        [ ("orderId", VInt 345678); ("clientOrderId", VStr "demoStop");
          ("status", VStr "NEW") ]
  | Oco _ _ _ _ _ _ =>
      dict_display
        [ ("orderListId", VInt 456789); ("contingencyType", VStr "OCO");
          ("listStatusType", VStr "RESPONSE");
          ("listOrderStatus", VStr "EXEC_STARTED");
          ("listClientOrderId", VStr "demoOCO") ]
  | OrderStatus symbol order_id =>
      dict_display
        [ ("orderId", order_id); ("symbol", VStr (normal symbol));
          ("status", VStr "FILLED"); ("price", VStr "50000.00");
          ("avgPrice", VStr "50000.00"); ("executedQty", VStr "0.001") ]
  | AccountInfo => demo_account
  end.

End Shape.

(** ** The window ([BasicBotGUI] of [gui_bot.py]) *)

(** The part of the window that decides what reaches the bot: the check of
    the form, the call made for it and the reading of the result. The Tk
    variables are the fields of [Form]; the builtin [float] is the argument
    [float_], which returns a float or raises; a message box is recorded as
    [box]. The worker thread is run in place, the handler it schedules with
    [root.after] is returned as [scheduled]; what is written to the log area
    and the state of the button are left out. *)

Module Gui.
Import PyStr PyNum PyVal PyExc BasicBot.

Record Form : Type := {
  symbol_var : string;
  side_var : string;
  quantity_var : string;
  order_type_var : string;
  price_var : string;
  stop_price_var : string;
  oco_limit_price_var : string;
  oco_stop_price_var : string;
  oco_stop_limit_price_var : string
}.

(** A message box: its title, and its message as the parts of an f-string,
    each rendered by [str]. *)
Inductive box : Type :=
| ShowError (title : string) (message : list value)
| ShowInfo (title : string) (message : list value).

(** Sequencing of code that can raise. *)
Definition and_then {A B : Type} (x : Exc A) (k : A -> Exc B) : Exc B :=
  match x with
  | Ok a => k a
  | Raise e => Raise e
  end.

(** [if cond: raise ValueError(msg)] *)
Definition reject_if (cond : bool) (msg : string) : Exc unit :=
  if cond then Raise (mk_exn ValueError msg) else Ok tt.

(** [a <= b] on floats. *)
Definition float_le (a b : spec_float) : bool := SFleb a b.

(** [validate_inputs]: [True] or [False], and the message box shown. *)
Definition validate_inputs (float_ : string -> Exc spec_float) (f : Form)
    : bool * list box :=
  let body : Exc unit :=
    let symbol := upper (strip (symbol_var f)) in
    and_then
      (reject_if (negb (truthy symbol) || negb (endswith symbol "USDT"))
         "Symbol must end with USDT") (fun _ =>
    let side := side_var f in
    and_then
      (reject_if (negb (existsb (String.eqb side) ["BUY"; "SELL"]))
         "Side must be BUY or SELL") (fun _ =>
    and_then (float_ (quantity_var f)) (fun quantity =>
    and_then
      (reject_if (le_zero (NFloat quantity)) "Quantity must be greater than 0")
      (fun _ =>
    let order_type := order_type_var f in
    if String.eqb order_type "LIMIT" then
      and_then (float_ (price_var f)) (fun price =>
      reject_if (le_zero (NFloat price)) "Price must be greater than 0")
    else if String.eqb order_type "STOP_MARKET" then
      and_then (float_ (stop_price_var f)) (fun stop_price =>
      reject_if (le_zero (NFloat stop_price))
        "Stop price must be greater than 0")
    else if String.eqb order_type "OCO" then
      and_then (float_ (oco_limit_price_var f)) (fun limit_price =>
      and_then (float_ (oco_stop_price_var f)) (fun stop_price =>
      and_then (float_ (oco_stop_limit_price_var f)) (fun stop_limit_price =>
      and_then
        (reject_if (le_zero (NFloat limit_price) || le_zero (NFloat stop_price)
                    || le_zero (NFloat stop_limit_price))
           "All OCO prices must be greater than 0") (fun _ =>
      if String.eqb side "BUY" then
        reject_if (float_le limit_price stop_price)
          "For BUY orders: Limit price should be higher than stop price"
      else
        reject_if (float_le stop_price limit_price)
          "For SELL orders: Limit price should be lower than stop price"))))
    else Ok tt)))) in
  match body with
  | Ok _ => (true, [])
  | Raise e =>
      if isinstance e [ValueError] then
        (false, [ShowError "Validation Error" [VStr (exn_str e)]])
      else
        (false, [ShowError "Error" [VStr "Unexpected error: "; VStr (exn_str e)]])
  end.

(** The handler the worker thread schedules on the main thread. *)
Inductive scheduled : Type :=
| HandleResult (result : dict)
| HandleError (error_msg : string).

(** [self.root.after(0, self._handle_order_result, result)] for the result
    of an operation. *)
Definition hand_over (r : dict * trace) : scheduled * trace :=
  (HandleResult (fst r), snd r).

(** [_place_order_thread] *)
Definition _place_order_thread (float_ : string -> Exc spec_float)
    (bot : BasicBot) (now : string) (f : Form) : scheduled * trace :=
  let order_type := order_type_var f in
  let symbol := upper (strip (symbol_var f)) in
  let side := side_var f in
  match float_ (quantity_var f) with
  | Raise e => (HandleError (exn_str e), [])
  | Ok quantity =>
      if String.eqb order_type "MARKET" then
        hand_over (place_market_order bot now symbol side (NFloat quantity))
      else if String.eqb order_type "LIMIT" then
        match float_ (price_var f) with
        | Raise e => (HandleError (exn_str e), [])
        | Ok price =>
            hand_over
              (place_limit_order bot now symbol side (NFloat quantity)
                 (NFloat price))
        end
      else if String.eqb order_type "STOP_MARKET" then
        match float_ (stop_price_var f) with
        | Raise e => (HandleError (exn_str e), [])
        | Ok stop_price =>
            hand_over
              (place_stop_market_order bot now symbol side (NFloat quantity)
                 (NFloat stop_price))
        end
      else if String.eqb order_type "OCO" then
        match float_ (oco_limit_price_var f) with
        | Raise e => (HandleError (exn_str e), [])
        | Ok limit_price =>
            match float_ (oco_stop_price_var f) with
            | Raise e => (HandleError (exn_str e), [])
            | Ok stop_price =>
                match float_ (oco_stop_limit_price_var f) with
                | Raise e => (HandleError (exn_str e), [])
                | Ok stop_limit_price =>
                    hand_over
                      (place_oco_order bot now symbol side (NFloat quantity)
                         (NFloat limit_price) (NFloat stop_price)
                         (NFloat stop_limit_price))
                end
            end
        end
      else
        (HandleError (String.append "Unsupported order type: " order_type), [])
  end.

(** [place_order]: the message boxes shown, the handler scheduled if the
    worker thread was started, and the requests sent. [bot] is [self.bot],
    [None] when the bot could not be built. *)
Definition place_order (float_ : string -> Exc spec_float)
    (bot : option BasicBot) (now : string) (f : Form)
    : list box * option scheduled * trace :=
  let (valid, boxes) := validate_inputs float_ f in
  if negb valid then (boxes, None, [])
  else
    match bot with
    | None => ([ShowError "Error" [VStr "BasicBot not initialized"]], None, [])
    | Some b =>
        let (handler, sent) := _place_order_thread float_ b now f in
        ([], Some handler, sent)
    end.

(** [result.get('status') == 'SUCCESS'] *)
Definition is_success (result : dict) : bool :=
  match get result "status" VNone with
  | VStr s => String.eqb s "SUCCESS"
  | _ => false
  end.

Definition newline : string := String (ascii_of_nat 10) EmptyString.

(** [_handle_order_result]: the text of the status line and the message box
    shown. *)
Definition _handle_order_result (result : dict) : string * box :=
  if is_success result then
    ("Order placed successfully",
     ShowInfo "Success" [VStr "Order placed successfully!"])
  else
    let error_msg := get result "error" (VStr "Unknown error") in
    ("Order failed",
     ShowError "Error"
       [VStr (String.append "Order failed:" newline); error_msg]).

End Gui.

Import PyStr PyNum PyVal PyExc BasicBot Spec.
Import Cli Shape Gui.

(** Case analysis on everything an operation branches on. *)
Ltac branches :=
  repeat match goal with
  | |- context [_validate_symbol ?s] => destruct (_validate_symbol s)
  | |- context [_validate_side ?s] => destruct (_validate_side s)
  | |- context [_validate_quantity ?q] => destruct (_validate_quantity q)
  | |- context [_validate_price ?p] => destruct (_validate_price p)
  | |- context [demo ?b] => destruct (demo b)
  | |- context [client ?b] => destruct (client b)
  | |- context [futures_create_order ?c ?p] => destruct (futures_create_order c p)
  | |- context [futures_create_oco_order ?c ?p] =>
      destruct (futures_create_oco_order c p)
  | |- context [futures_get_order ?c ?p] => destruct (futures_get_order c p)
  | |- context [futures_account ?c ?p] => destruct (futures_account c p)
  | _ => progress cbv beta iota zeta delta
           [bind lift ret raise call_client try_except_all fst snd untimed]
  end.

(** * Strings: case mapping against trimming *)

Section StringFacts.

Lemma upper_char_space (c : ascii) : is_space (upper_char c) = is_space c.
Proof. destruct c as [[] [] [] [] [] [] [] []]; reflexivity. Qed.

Lemma lstrip_upper (s : string) : lstrip (upper s) = upper (lstrip s).
Proof.
  induction s as [|c s IH]; simpl; [reflexivity|].
  rewrite upper_char_space.
  destruct (is_space c); [exact IH | reflexivity].
Qed.

Lemma rstrip_upper (s : string) : rstrip (upper s) = upper (rstrip s).
Proof.
  induction s as [|c s IH]; simpl; [reflexivity|].
  rewrite IH, upper_char_space.
  destruct (rstrip s); simpl; [destruct (is_space c)|]; reflexivity.
Qed.

Lemma strip_upper (s : string) : strip (upper s) = upper (strip s).
Proof. unfold strip. now rewrite lstrip_upper, rstrip_upper. Qed.

Lemma append_length (p q : string) :
  String.length (String.append p q) = String.length p + String.length q.
Proof. induction p as [|c p IH]; simpl; [reflexivity | now rewrite IH]. Qed.

Lemma substring_whole (s : string) : substring 0 (String.length s) s = s.
Proof. induction s as [|c s IH]; simpl; [reflexivity | now rewrite IH]. Qed.

Lemma substring_append (p q : string) :
  substring (String.length p) (String.length q) (String.append p q) = q.
Proof. induction p as [|c p IH]; simpl; [apply substring_whole | exact IH]. Qed.

Lemma substring_tail (s : string) (n : nat) :
  n <= String.length s ->
  exists p, s = String.append p (substring n (String.length s - n) s).
Proof.
  revert s; induction n as [|n IH]; intros s Hn.
  - exists EmptyString. now rewrite Nat.sub_0_r, substring_whole.
  - destruct s as [|c s]; simpl in Hn; [lia|].
    destruct (IH s) as [p Hp]; [lia|].
    exists (String c p). simpl. now rewrite <- Hp.
Qed.

Lemma endswith_iff (s suffix : string) :
  endswith s suffix = true <-> ends_in s suffix.
Proof.
  unfold endswith, ends_in. rewrite andb_true_iff, Nat.leb_le, String.eqb_eq.
  split.
  - intros [Hle Hsub].
    destruct (substring_tail s (String.length s - String.length suffix))
      as [p Hp]; [lia|].
    exists p. rewrite Hp at 1. f_equal.
    replace (String.length s - (String.length s - String.length suffix))
      with (String.length suffix) by lia.
    exact Hsub.
  - intros [p ->]. rewrite append_length. split; [lia|].
    replace (String.length p + String.length suffix - String.length suffix)
      with (String.length p) by lia.
    apply substring_append.
Qed.

Lemma ends_in_nonempty (t : string) : ends_in t "USDT" -> t <> "".
Proof. intros [[|c p] ->]; discriminate. Qed.

End StringFacts.

(** * The validators *)

(** C4. For every string [s], [_validate_symbol s] returns [t] exactly when
    [t] is [s] trimmed and put in upper case, is not empty and ends in
    "USDT"; otherwise it raises a [ValueError]. So " btcusdt " gives
    "BTCUSDT", and "BTCUSD" and "" are rejected. *)
Theorem validate_symbol_iff (s : string) :
  (forall t : string,
      _validate_symbol s = Ok t <->
      t = trimmed_upper s /\ t <> "" /\ ends_in t "USDT")
  /\ ((exists t, _validate_symbol s = Ok t) \/
      (exists msg, _validate_symbol s = Raise (mk_exn ValueError msg)))
  /\ _validate_symbol " btcusdt " = Ok "BTCUSDT"
  /\ _validate_symbol "BTCUSD"
     = Raise (mk_exn ValueError "Symbol must end with USDT for USDT-M Futures")
  /\ _validate_symbol "" = Raise (mk_exn ValueError "Symbol cannot be empty").
Proof.
  split; [|split; [|repeat split]].
  - intros t. unfold _validate_symbol, trimmed_upper. cbv zeta.
    destruct s as [|c s]; cbn [truthy negb].
    + split; [discriminate|]. simpl. intros (-> & H & _). now elim H.
    + rewrite strip_upper. set (u := upper (strip (String c s))).
      destruct (endswith u "USDT") eqn:E; cbn [negb].
      * apply endswith_iff in E. split.
        -- intros [= <-]. repeat split; trivial. now apply ends_in_nonempty.
        -- now intros (-> & _).
      * split; [discriminate|]. intros (-> & _ & H).
        apply endswith_iff in H. congruence.
  - unfold _validate_symbol. cbv zeta.
    destruct (negb (truthy s)); [right; eauto|].
    destruct (negb (endswith _ _)); [right|left]; eauto.
Qed.

(** Away from NaN, [x <= 0] is the negation of [x > 0]. *)
Lemma le_zero_gt_zero (x : number) :
  is_nan x = false -> le_zero x = negb (gt_zero x).
Proof.
  destruct x as [z | [s | s | | s m e]]; simpl; intros Hn;
    try discriminate; try (destruct s; reflexivity).
  destruct (Z.leb_spec z 0), (Z.ltb_spec 0 z); simpl; lia || reflexivity.
Qed.

(** On every number that is not NaN, [_validate_quantity] succeeds exactly
    on the strictly positive ones and returns its argument. *)
Lemma validate_quantity_ordered (q : number) :
  is_nan q = false ->
  (forall r, _validate_quantity q = Ok r <-> gt_zero q = true /\ r = q).
Proof.
  intros Hn r. unfold _validate_quantity. rewrite (le_zero_gt_zero q Hn).
  destruct (gt_zero q); simpl; split; try discriminate.
  - intros [= <-]; auto.
  - intros [_ ->]; reflexivity.
  - intros [? _]; discriminate.
Qed.

(** The same for [_validate_price]. *)
Lemma validate_price_ordered (p : number) :
  is_nan p = false ->
  (forall r, _validate_price p = Ok r <-> gt_zero p = true /\ r = p).
Proof.
  intros Hn r. unfold _validate_price. rewrite (le_zero_gt_zero p Hn).
  destruct (gt_zero p); simpl; split; try discriminate.
  - intros [= <-]; auto.
  - intros [_ ->]; reflexivity.
  - intros [? _]; discriminate.
Qed.

(** A strictly positive number passes both validators unchanged. *)
Lemma validate_quantity_positive (q : number) :
  gt_zero q = true -> _validate_quantity q = Ok q.
Proof.
  intros H. apply validate_quantity_ordered; [|auto].
  destruct q as [z | [ | | | ]]; try reflexivity. cbv in H. discriminate.
Qed.

Lemma validate_price_positive (p : number) :
  gt_zero p = true -> _validate_price p = Ok p.
Proof.
  intros H. apply validate_price_ordered; [|auto].
  destruct p as [z | [ | | | ]]; try reflexivity. cbv in H. discriminate.
Qed.

(** A zero of either type or sign is [<= 0]. *)
Lemma eq_zero_le_zero (x : number) : eq_zero x = true -> le_zero x = true.
Proof.
  destruct x as [z | [s | s | | s m e]]; simpl; intros H;
    try reflexivity; try (cbv in H; discriminate);
    try (destruct s; cbv in H; discriminate).
  apply Z.eqb_eq in H. subst z. reflexivity.
Qed.

(** Zero and every negative number are rejected by both validators. *)
Lemma validate_rejects_nonpositive (x : number) :
  lt_zero x = true \/ eq_zero x = true ->
  _validate_quantity x
    = Raise (mk_exn ValueError "Quantity must be greater than 0")
  /\ _validate_price x = Raise (mk_exn ValueError "Price must be greater than 0").
Proof.
  intros H. unfold _validate_quantity, _validate_price.
  assert (Hle : le_zero x = true); [|now rewrite Hle].
  destruct H as [H | H].
  - destruct x as [z | [s | s | | s m e]]; simpl in *;
      try (cbv in H; discriminate);
      try (destruct s; first [reflexivity | cbv in H; discriminate]).
    apply Z.ltb_lt in H. apply Z.leb_le. lia.
  - now apply eq_zero_le_zero.
Qed.

(** The smallest positive float passes. *)
Example validate_quantity_tiny :
  _validate_quantity (NFloat f_min_subnormal) = Ok (NFloat f_min_subnormal)
  /\ _validate_price (NFloat f_min_subnormal) = Ok (NFloat f_min_subnormal).
Proof. split; reflexivity. Qed.

(** C6. The claim fails at NaN: [nan <= 0] is false, so both validators
    return NaN although it is not greater than zero (nor is it less than or
    equal to zero). *)
Theorem validate_nan_accepted :
  _validate_quantity nan = Ok nan
  /\ _validate_price nan = Ok nan
  /\ gt_zero nan = false.
Proof. repeat split. Qed.

(** * Construction *)

(** C9. When the API key or the API secret is missing from both the
    parameters and the environment, constructing a live bot raises a
    [ValueError] (no bot exists, so no operation can be called on it),
    while constructing a demo bot succeeds. *)
Theorem init_credentials
    (getenv : string -> option string)
    (new_client : option string -> option string -> Exc Client)
    (key secret : option string) :
  missing key (getenv "BINANCE_API_KEY") \/
  missing secret (getenv "BINANCE_API_SECRET") ->
  __init__ getenv new_client key secret false
    = Raise (mk_exn ValueError credentials_message)
  /\ __init__ getenv new_client key secret true = Ok demo_bot.
Proof.
  intros Hmiss. split; [|reflexivity].
  unfold __init__, py_or. cbv zeta.
  destruct Hmiss as [[Hp Hv] | [Hp Hv]]; rewrite Hp, Hv; simpl.
  - reflexivity.
  - now rewrite orb_true_r.
Qed.

Lemma init_credentials_witness :
  __init__ (fun _ => None) (fun _ _ => Raise (mk_exn OtherException "unreachable"))
    None (Some "secret") false
    = Raise (mk_exn ValueError credentials_message)
  /\ __init__ (fun _ => None) (fun _ _ => Raise (mk_exn OtherException "unreachable"))
       None (Some "secret") true = Ok demo_bot.
Proof.
  apply init_credentials. left. split; reflexivity.
Defined.

(** With both credentials at hand the constructor goes on to build the
    client, and the bot it returns holds it. *)
Lemma init_live (getenv : string -> option string)
    (new_client : option string -> option string -> Exc Client)
    (key secret : string) (c : Client) :
  truthy key = true -> truthy secret = true ->
  new_client (Some key) (Some secret) = Ok c ->
  __init__ getenv new_client (Some key) (Some secret) false
    = Ok {| demo := false; api_key := Some key; api_secret := Some secret;
            client := Some c |}.
Proof.
  intros Hk Hs Hc. unfold __init__, py_or.
  destruct key, secret; try discriminate. simpl. now rewrite Hc.
Qed.

(** * The operations *)

Lemma try_except_same (now : string) (body : M dict) :
  try_except now body = try_except_all now body.
Proof.
  destruct body as [[d | e] t]; unfold try_except, try_except_all;
    [reflexivity|].
  now destruct (isinstance e [BinanceAPIException; BinanceOrderException]).
Qed.

(** C1. The claim fails on the [status] field: in demo mode the market order
    for "btcusdt", "buy", 0.001 returns a dict whose [status] is the remote
    status "FILLED", because the key [status] is written twice in the dict
    display and the second value replaces "SUCCESS"; the other fields are as
    claimed, and there is one [status] key, not two. *)
Theorem market_order_demo_status
    (getenv : string -> option string)
    (new_client : option string -> option string -> Exc Client)
    (key secret : option string) (now : string) :
  exists bot : BasicBot,
    __init__ getenv new_client key secret true = Ok bot
    /\ let r := place_market_order bot now "btcusdt" "buy" (NFloat f_0_001) in
       field "status" r = Some (VStr "FILLED")
       /\ field "status" r <> Some (VStr "SUCCESS")
       /\ field "order_type" r = Some (VStr "MARKET")
       /\ field "symbol" r = Some (VStr "BTCUSDT")
       /\ field "side" r = Some (VStr "BUY")
       /\ field "order_id" r = Some (VInt 123456)
       /\ count_occ string_dec (keys (fst r)) "status" = 1.
Proof.
  exists demo_bot. split; [reflexivity|].
  repeat split. discriminate.
Qed.

(** C2. The claim fails on the [status] field: the limit and the stop-market
    order of a demo bot return without raising, but the [status] of the
    result is "NEW", neither "SUCCESS" nor "ERROR". *)
Theorem resting_orders_demo_status (now : string) :
  field "status"
    (place_limit_order demo_bot now "BTCUSDT" "SELL" (NFloat f_0_001) (NInt 50000))
  = Some (VStr "NEW")
  /\ field "status"
       (place_stop_market_order demo_bot now "BTCUSDT" "SELL" (NFloat f_0_001)
          (NInt 45000))
     = Some (VStr "NEW").
Proof. split; reflexivity. Qed.

(** Every operation returns a dict with a [status] field, whatever its
    arguments, the mode and the behaviour of the client. *)
Lemma status_always_present (self : BasicBot) (now symbol side : string)
    (q p1 p2 p3 : number) (order_id : value) :
  (exists v, field "status" (place_market_order self now symbol side q) = Some v)
  /\ (exists v, field "status" (place_limit_order self now symbol side q p1) = Some v)
  /\ (exists v,
       field "status" (place_stop_market_order self now symbol side q p1) = Some v)
  /\ (exists v,
       field "status" (place_oco_order self now symbol side q p1 p2 p3) = Some v)
  /\ (exists v, field "status" (get_order_status self now symbol order_id) = Some v)
  /\ (exists v, field "status" (get_account_info self now) = Some v).
Proof.
  unfold place_market_order, place_limit_order, place_stop_market_order,
    place_oco_order, get_order_status, get_account_info, field.
  rewrite !try_except_same.
  repeat split; branches; eexists; reflexivity.
Qed.

(** The OCO order and the two queries keep "SUCCESS" and "ERROR" as their
    only [status] values: their dict displays write the key once. *)
Lemma status_tag_untouched (self : BasicBot) (now symbol side : string)
    (q p1 p2 p3 : number) (order_id : value) :
  let tag r := field "status" r = Some (VStr "SUCCESS") \/
               field "status" r = Some (VStr "ERROR") in
  tag (place_oco_order self now symbol side q p1 p2 p3)
  /\ tag (get_order_status self now symbol order_id)
  /\ tag (get_account_info self now).
Proof.
  unfold place_oco_order, get_order_status, get_account_info, field.
  rewrite !try_except_same.
  repeat split; branches; (left; reflexivity) || (right; reflexivity).
Qed.

(** C5. A limit order with price 0 (integer zero, or a float zero of either
    sign), for a valid symbol, side and quantity, returns the ERROR result
    whose message is "Price must be greater than 0", in either mode and
    whatever the client; no request reaches the client, and the result has
    none of the fields a dispatch fills in. *)
Theorem limit_order_zero_price (self : BasicBot) (now symbol side : string)
    (quantity price : number) (sym sd : string) :
  _validate_symbol symbol = Ok sym ->
  _validate_side side = Ok sd ->
  gt_zero quantity = true ->
  eq_zero price = true ->
  let r := place_limit_order self now symbol side quantity price in
  field "status" r = Some (VStr "ERROR")
  /\ field "error" r = Some (VStr "Price must be greater than 0")
  /\ keys (fst r) = ["status"; "error"; "timestamp"]
  /\ sent r = [].
Proof.
  intros Hsym Hside Hq Hp r. subst r. unfold place_limit_order, _validate_price.
  rewrite Hsym, Hside, (validate_quantity_positive _ Hq),
    (eq_zero_le_zero _ Hp).
  repeat split.
Qed.

Lemma limit_order_zero_price_witness :
  let r := place_limit_order demo_bot "2024-01-01T00:00:00" "BTCUSDT" "SELL"
             (NFloat f_0_001) (NInt 0) in
  field "status" r = Some (VStr "ERROR")
  /\ field "error" r = Some (VStr "Price must be greater than 0")
  /\ keys (fst r) = ["status"; "error"; "timestamp"]
  /\ sent r = [].
Proof.
  apply (limit_order_zero_price demo_bot "2024-01-01T00:00:00" "BTCUSDT" "SELL"
           (NFloat f_0_001) (NInt 0) "BTCUSDT" "SELL"); reflexivity.
Defined.

(** C3. For a valid symbol, a valid side, a strictly positive quantity and
    three strictly positive prices in any order, [place_oco_order] passes
    validation: a demo bot returns a SUCCESS result echoing the three prices,
    and a live bot sends exactly one [futures_create_oco_order] request
    carrying them. Nothing relates the prices to each other or to the
    side. *)
Theorem oco_prices_unordered (self : BasicBot) (now symbol side : string)
    (q lp sp slp : number) (sym sd : string) :
  _validate_symbol symbol = Ok sym ->
  _validate_side side = Ok sd ->
  gt_zero q = true ->
  gt_zero lp = true -> gt_zero sp = true -> gt_zero slp = true ->
  let r := place_oco_order self now symbol side q lp sp slp in
  (demo self = true ->
     field "status" r = Some (VStr "SUCCESS")
     /\ field "limit_price" r = Some (of_number lp)
     /\ field "stop_price" r = Some (of_number sp)
     /\ field "stop_limit_price" r = Some (of_number slp)
     /\ sent r = [])
  /\ (forall c : Client, demo self = false -> client self = Some c ->
        sent r = [Request "futures_create_oco_order" (oco_params sym sd q lp sp slp)]).
Proof.
  intros Hsym Hside Hq Hlp Hsp Hslp r. subst r. unfold place_oco_order.
  rewrite Hsym, Hside, (validate_quantity_positive _ Hq),
    !validate_price_positive by assumption.
  rewrite try_except_same. split.
  - intros Hd. cbv beta iota zeta delta [bind lift ret]. rewrite Hd.
    repeat split.
  - intros c Hd Hc.
    cbv beta iota zeta delta [bind lift ret call_client]. rewrite Hd, Hc.
    fold (oco_params sym sd q lp sp slp).
    destruct (futures_create_oco_order c _); reflexivity.
Qed.

Lemma oco_prices_unordered_witness :
  let r := place_oco_order demo_bot "2024-01-01T00:00:00" "ethusdt" "buy"
             (NInt 2) (NInt 100) (NInt 300) (NInt 200) in
  (demo demo_bot = true ->
     field "status" r = Some (VStr "SUCCESS")
     /\ field "limit_price" r = Some (VInt 100)
     /\ field "stop_price" r = Some (VInt 300)
     /\ field "stop_limit_price" r = Some (VInt 200)
     /\ sent r = [])
  /\ (forall c : Client, demo demo_bot = false -> client demo_bot = Some c ->
        sent r = [Request "futures_create_oco_order"
                    (oco_params "ETHUSDT" "BUY" (NInt 2) (NInt 100) (NInt 300)
                       (NInt 200))]).
Proof.
  apply (oco_prices_unordered demo_bot "2024-01-01T00:00:00" "ethusdt" "buy"
           (NInt 2) (NInt 100) (NInt 300) (NInt 200) "ETHUSDT" "BUY");
    reflexivity.
Defined.

(** C8. On a demo bot the OCO order for BTCUSDT, SELL, 0.001 with prices
    50000, 45000 and 44900 returns status SUCCESS, order_list_id 456789 and
    contingency_type OCO, and sends nothing to a client. *)
Theorem oco_order_demo (self : BasicBot) (now : string) :
  demo self = true ->
  let r := place_oco_order self now "BTCUSDT" "SELL" (NFloat f_0_001)
             (NInt 50000) (NInt 45000) (NInt 44900) in
  field "status" r = Some (VStr "SUCCESS")
  /\ field "order_list_id" r = Some (VInt 456789)
  /\ field "contingency_type" r = Some (VStr "OCO")
  /\ sent r = [].
Proof.
  destruct self as [d k s c]. simpl. intros ->. repeat split.
Qed.

Lemma oco_order_demo_witness :
  let r := place_oco_order demo_bot "2024-01-01T00:00:00" "BTCUSDT" "SELL"
             (NFloat f_0_001) (NInt 50000) (NInt 45000) (NInt 44900) in
  field "status" r = Some (VStr "SUCCESS")
  /\ field "order_list_id" r = Some (VInt 456789)
  /\ field "contingency_type" r = Some (VStr "OCO")
  /\ sent r = [].
Proof.
  apply (oco_order_demo demo_bot "2024-01-01T00:00:00"). reflexivity.
Defined.

(** C10. [get_order_status] checks its symbol and nothing else: for a valid
    symbol and any [order_id] whatever, a demo bot returns status SUCCESS
    with that [order_id] under [orderId] in the order record, and a live bot
    forwards it unchanged to [futures_get_order]. *)
Theorem order_status_id_unchecked (self : BasicBot) (now symbol sym : string)
    (order_id : value) :
  _validate_symbol symbol = Ok sym ->
  let r := get_order_status self now symbol order_id in
  (demo self = true ->
     field "status" r = Some (VStr "SUCCESS")
     /\ field "order_status" r = Some (VDict (demo_order_record sym order_id))
     /\ lookup "orderId" (demo_order_record sym order_id) = Some order_id
     /\ sent r = [])
  /\ (forall c : Client, demo self = false -> client self = Some c ->
        sent r = [Request "futures_get_order"
                    (dict_display [("symbol", VStr sym); ("orderId", order_id)])]).
Proof.
  intros Hsym r. subst r. unfold get_order_status. rewrite Hsym. split.
  - intros Hd. cbv beta iota zeta delta [bind lift ret]. rewrite Hd.
    repeat split.
  - intros c Hd Hc.
    cbv beta iota zeta delta [bind lift ret call_client]. rewrite Hd, Hc.
    destruct (futures_get_order c _); reflexivity.
Qed.

Lemma order_status_id_unchecked_witness :
  let r := get_order_status demo_bot "2024-01-01T00:00:00" " btcusdt"
             (VInt (-7)) in
  (demo demo_bot = true ->
     field "status" r = Some (VStr "SUCCESS")
     /\ field "order_status" r
        = Some (VDict (demo_order_record "BTCUSDT" (VInt (-7))))
     /\ lookup "orderId" (demo_order_record "BTCUSDT" (VInt (-7)))
        = Some (VInt (-7))
     /\ sent r = [])
  /\ (forall c : Client, demo demo_bot = false -> client demo_bot = Some c ->
        sent r = [Request "futures_get_order"
                    (dict_display
                       [("symbol", VStr "BTCUSDT"); ("orderId", VInt (-7))])]).
Proof.
  apply (order_status_id_unchecked demo_bot "2024-01-01T00:00:00" " btcusdt"
           "BTCUSDT" (VInt (-7))).
  reflexivity.
Defined.

(** C7. Two calls of the same order-placement operation on the same bot
    with the same arguments, made at different times, return results that
    agree once the [timestamp] field is taken away, and each carries its own
    capture time in that field. This holds for every argument and both
    modes, a live client answering both calls alike. *)
Theorem results_equal_up_to_timestamp (self : BasicBot) (now1 now2 : string)
    (symbol side : string) (q p1 p2 p3 : number) :
  (untimed (place_market_order self now1 symbol side q)
     = untimed (place_market_order self now2 symbol side q)
   /\ field "timestamp" (place_market_order self now1 symbol side q)
      = Some (VStr now1))
  /\ (untimed (place_limit_order self now1 symbol side q p1)
        = untimed (place_limit_order self now2 symbol side q p1)
      /\ field "timestamp" (place_limit_order self now1 symbol side q p1)
         = Some (VStr now1))
  /\ (untimed (place_stop_market_order self now1 symbol side q p1)
        = untimed (place_stop_market_order self now2 symbol side q p1)
      /\ field "timestamp" (place_stop_market_order self now1 symbol side q p1)
         = Some (VStr now1))
  /\ (untimed (place_oco_order self now1 symbol side q p1 p2 p3)
        = untimed (place_oco_order self now2 symbol side q p1 p2 p3)
      /\ field "timestamp" (place_oco_order self now1 symbol side q p1 p2 p3)
         = Some (VStr now1)).
Proof.
  unfold place_market_order, place_limit_order, place_stop_market_order,
    place_oco_order, field.
  rewrite !try_except_same.
  repeat split; branches; reflexivity.
Qed.

(** * Further properties of the validators *)

Section StripFacts.

Lemma upper_char_idem (c : ascii) : upper_char (upper_char c) = upper_char c.
Proof. destruct c as [[] [] [] [] [] [] [] []]; reflexivity. Qed.

Lemma upper_idem (s : string) : upper (upper s) = upper s.
Proof.
  induction s as [|c s IH]; simpl; [reflexivity|].
  now rewrite upper_char_idem, IH.
Qed.

Lemma lstrip_idem (s : string) : lstrip (lstrip s) = lstrip s.
Proof.
  induction s as [|c s IH]; simpl; [reflexivity|].
  destruct (is_space c) eqn:E; [exact IH|]. simpl. now rewrite E.
Qed.

Lemma rstrip_idem (s : string) : rstrip (rstrip s) = rstrip s.
Proof.
  induction s as [|c s IH]; simpl; [reflexivity|].
  destruct (rstrip s) as [|c' r] eqn:E.
  - destruct (is_space c) eqn:Ec; simpl; [reflexivity | now rewrite Ec].
  - change (rstrip (String c (String c' r))) with
      (match rstrip (String c' r) with
       | EmptyString => if is_space c then EmptyString else String c EmptyString
       | r' => String c r'
       end).
    now rewrite IH.
Qed.

Lemma lstrip_length (s : string) : String.length (lstrip s) <= String.length s.
Proof.
  induction s as [|c s IH]; simpl; [lia|].
  destruct (is_space c); simpl; lia.
Qed.

(** Trimming on the right leaves a string with no leading whitespace
    without leading whitespace. *)
Lemma rstrip_keeps_lstrip (t : string) :
  lstrip t = t -> lstrip (rstrip t) = rstrip t.
Proof.
  destruct t as [|c t]; simpl; [reflexivity|].
  destruct (is_space c) eqn:E.
  - intros H. pose proof (lstrip_length t) as L. rewrite H in L. simpl in L. lia.
  - intros _. destruct (rstrip t); simpl; now rewrite E.
Qed.

Lemma strip_idem (s : string) : strip (strip s) = strip s.
Proof.
  unfold strip.
  rewrite (rstrip_keeps_lstrip (lstrip s) (lstrip_idem s)).
  apply rstrip_idem.
Qed.

(** The form the validators bring a string to is stable under them. *)
Lemma normal_form_idem (s : string) :
  strip (upper (strip (upper s))) = strip (upper s).
Proof. now rewrite (strip_upper (strip (upper s))), strip_idem, <- strip_upper, upper_idem. Qed.

End StripFacts.

(** The result of [_validate_symbol], read off its definition. *)
Lemma validate_symbol_ok (s t : string) :
  _validate_symbol s = Ok t ->
  t = strip (upper s) /\ endswith t "USDT" = true /\ truthy t = true.
Proof.
  unfold _validate_symbol. cbv zeta.
  destruct (negb (truthy s)); [discriminate|].
  destruct (endswith (strip (upper s)) "USDT") eqn:E; cbn [negb];
    [|discriminate].
  intros [= <-]. repeat split; trivial.
  apply endswith_iff in E. destruct E as [[|c p] ->]; reflexivity.
Qed.

(** The result of [_validate_side], read off its definition. *)
Lemma validate_side_ok (s t : string) :
  _validate_side s = Ok t ->
  t = strip (upper s) /\ (t = "BUY" \/ t = "SELL").
Proof.
  unfold _validate_side. cbv zeta. set (u := strip (upper s)).
  cbn [existsb]. rewrite orb_false_r.
  destruct (String.eqb_spec u "BUY") as [E | E];
    [|destruct (String.eqb_spec u "SELL") as [E' | E']]; cbn [orb negb];
    try discriminate; intros [= <-]; auto.
Qed.

(** X1. A symbol [_validate_symbol] returns is accepted by it again and
    comes back unchanged: validating twice is validating once. *)
Theorem validate_symbol_fixed (s t : string) :
  _validate_symbol s = Ok t -> _validate_symbol t = Ok t.
Proof.
  intros H. apply validate_symbol_ok in H. destruct H as (Ht & Hend & Hne).
  assert (Hnf : strip (upper t) = t).
  { rewrite Ht. apply normal_form_idem. }
  unfold _validate_symbol. cbv zeta. rewrite Hnf, Hend, Hne. reflexivity.
Qed.

Lemma validate_symbol_fixed_witness :
  _validate_symbol "BTCUSDT" = Ok "BTCUSDT".
Proof.
  apply (validate_symbol_fixed "  btcUsdt " "BTCUSDT"). reflexivity.
Defined.

(** X2. [_validate_side s] returns [t] exactly when [t] is [s] trimmed and
    put in upper case and is "BUY" or "SELL"; every other string raises the
    [ValueError] "Side must be either 'BUY' or 'SELL'", the empty string
    included. *)
Theorem validate_side_iff (s : string) :
  (forall t : string,
      _validate_side s = Ok t <->
      t = trimmed_upper s /\ (t = "BUY" \/ t = "SELL"))
  /\ ((exists t, _validate_side s = Ok t) \/
      _validate_side s
        = Raise (mk_exn ValueError "Side must be either 'BUY' or 'SELL'"))
  /\ _validate_side ""
     = Raise (mk_exn ValueError "Side must be either 'BUY' or 'SELL'").
Proof.
  split; [|split; [|reflexivity]].
  - intros t. unfold trimmed_upper. rewrite <- strip_upper. split.
    + apply validate_side_ok.
    + intros [Ht Hcase]. unfold _validate_side. cbv zeta. rewrite <- Ht.
      destruct Hcase as [-> | ->]; reflexivity.
  - unfold _validate_side. cbv zeta.
    destruct (negb (existsb (String.eqb (strip (upper s))) ["BUY"; "SELL"]));
      [right; reflexivity | left; eauto].
Qed.

(** X3. A side [_validate_side] returns is accepted by it again and comes
    back unchanged. *)
Theorem validate_side_fixed (s t : string) :
  _validate_side s = Ok t -> _validate_side t = Ok t.
Proof.
  intros H. apply validate_side_ok in H.
  destruct H as [_ [-> | ->]]; reflexivity.
Qed.

Lemma validate_side_fixed_witness : _validate_side "SELL" = Ok "SELL".
Proof.
  apply (validate_side_fixed " sell" "SELL"). reflexivity.
Defined.

(** X4. A symbol that is not empty but holds only whitespace is not
    reported as empty: it is rejected with the message about the USDT
    suffix. *)
Theorem validate_symbol_blank (s : string) :
  s <> "" -> strip s = "" ->
  _validate_symbol s
    = Raise (mk_exn ValueError "Symbol must end with USDT for USDT-M Futures").
Proof.
  intros Hne Hblank. unfold _validate_symbol. cbv zeta.
  rewrite strip_upper, Hblank.
  destruct s; [now elim Hne | reflexivity].
Qed.

Lemma validate_symbol_blank_witness :
  _validate_symbol "   "
    = Raise (mk_exn ValueError "Symbol must end with USDT for USDT-M Futures").
Proof.
  apply validate_symbol_blank; [discriminate | reflexivity].
Defined.

(** X5. On every number other than NaN the two numeric validators behave
    alike: a strictly positive number is returned as it is, and every other
    one raises a [ValueError] whose message names the quantity or the
    price. *)
Theorem validate_number_ordered (x : number) :
  is_nan x = false ->
  (gt_zero x = true /\
   _validate_quantity x = Ok x /\ _validate_price x = Ok x)
  \/ (gt_zero x = false /\
      _validate_quantity x
        = Raise (mk_exn ValueError "Quantity must be greater than 0") /\
      _validate_price x
        = Raise (mk_exn ValueError "Price must be greater than 0")).
Proof.
  intros Hn. unfold _validate_quantity, _validate_price.
  rewrite (le_zero_gt_zero x Hn).
  destruct (gt_zero x); cbn [negb]; [left | right]; repeat split.
Qed.

Lemma validate_number_ordered_witness :
  (gt_zero (NFloat (S754_infinity true)) = true /\
   _validate_quantity (NFloat (S754_infinity true))
     = Ok (NFloat (S754_infinity true)) /\
   _validate_price (NFloat (S754_infinity true))
     = Ok (NFloat (S754_infinity true)))
  \/ (gt_zero (NFloat (S754_infinity true)) = false /\
      _validate_quantity (NFloat (S754_infinity true))
        = Raise (mk_exn ValueError "Quantity must be greater than 0") /\
      _validate_price (NFloat (S754_infinity true))
        = Raise (mk_exn ValueError "Price must be greater than 0")).
Proof.
  apply (validate_number_ordered (NFloat (S754_infinity true))). reflexivity.
Defined.

(** * Further properties of the operations *)

Lemma validate_quantity_ok (q r : number) :
  _validate_quantity q = Ok r -> r = q /\ le_zero q = false.
Proof.
  unfold _validate_quantity. destruct (le_zero q); [discriminate|].
  intros [= <-]. split; reflexivity.
Qed.

Lemma validate_price_ok (p r : number) :
  _validate_price p = Ok r -> r = p /\ le_zero p = false.
Proof.
  unfold _validate_price. destruct (le_zero p); [discriminate|].
  intros [= <-]. split; reflexivity.
Qed.

(** Case analysis on the validator calls of the goal, each successful call
    replaced by what it returns. *)
Ltac validators :=
  repeat match goal with
  | |- context [_validate_symbol ?s] =>
      let E := fresh "Esym" in
      destruct (_validate_symbol s) eqn:E;
      [apply validate_symbol_ok in E; destruct E as (-> & ? & _) | clear E]
  | |- context [_validate_side ?s] =>
      let E := fresh "Eside" in
      destruct (_validate_side s) eqn:E;
      [apply validate_side_ok in E; destruct E as (-> & ?) | clear E]
  | |- context [_validate_quantity ?q] =>
      let E := fresh "Eq" in
      destruct (_validate_quantity q) eqn:E;
      [apply validate_quantity_ok in E; destruct E as (-> & ?) | clear E]
  | |- context [_validate_price ?p] =>
      let E := fresh "Ep" in
      destruct (_validate_price p) eqn:E;
      [apply validate_price_ok in E; destruct E as (-> & ?) | clear E]
  end.

Ltac unfold_run :=
  unfold run, checks, place_market_order, place_limit_order,
    place_stop_market_order, place_oco_order, get_order_status,
    get_account_info;
  rewrite ?try_except_same.

Ltac crunch :=
  cbv beta iota zeta delta
    [bind lift ret raise call_client try_except_all fst snd
     first_failure failure field sent].

(** X6. An operation stops at the first validator that raises, in the order
    symbol, side, quantity, prices: it returns the ERROR result carrying that
    validator's message and sends nothing to the client, in either mode. *)
Theorem validation_failure_short_circuits (self : BasicBot) (now : string)
    (c : call) (e : exn) :
  first_failure (checks c) = Some e ->
  run self now c = (error_result e now, []).
Proof.
  destruct c; unfold_run; validators; crunch;
    first [discriminate | intros [= ->]; reflexivity].
Qed.

Lemma validation_failure_short_circuits_witness :
  run demo_bot "2024-01-01T00:00:00"
    (Oco "BTCUSDT" "hold" (NInt 0) (NInt 1) (NInt (-1)) (NInt 2))
  = (error_result (mk_exn ValueError "Side must be either 'BUY' or 'SELL'")
       "2024-01-01T00:00:00", []).
Proof.
  apply validation_failure_short_circuits. reflexivity.
Defined.

Lemma request_bound (self : BasicBot) (now : string) (c : call) :
  List.length (snd (run self now c)) <= 1.
Proof.
  destruct c; unfold_run; branches; simpl; lia.
Qed.


(** X7. No call sends more than one request to the client, whatever the
    arguments, the mode and the answers of the client. *)
Theorem at_most_one_request (self : BasicBot) (now : string) (c : call) :
  List.length (sent (run self now c)) <= 1.
Proof. apply request_bound. Qed.

(** X8. When the checks of a call pass, a demo bot sends nothing to a
    client, and its result has the keys of a success, holds the made-up
    payload of the operation under the payload key and has no [error]
    field. *)
Theorem demo_call (self : BasicBot) (now : string) (c : call) :
  demo self = true ->
  first_failure (checks c) = None ->
  sent (run self now c) = []
  /\ keys (fst (run self now c)) = success_keys c
  /\ field (payload_key c) (run self now c) = Some (VDict (demo_payload c))
  /\ field "error" (run self now c) = None.
Proof.
  intros Hd. destruct self as [d k s cl]. simpl in Hd. subst d.
  destruct c; unfold_run; cbn [demo]; validators; crunch;
    first [discriminate | intros _; repeat split].
Qed.

Lemma demo_call_witness :
  let c := StopMarket "ethusdt" "sell" (NInt 3) (NInt 1500) in
  sent (run demo_bot "2024-01-01T00:00:00" c) = []
  /\ keys (fst (run demo_bot "2024-01-01T00:00:00" c)) = success_keys c
  /\ field (payload_key c) (run demo_bot "2024-01-01T00:00:00" c)
     = Some (VDict (demo_payload c))
  /\ field "error" (run demo_bot "2024-01-01T00:00:00" c) = None.
Proof.
  intros c. apply (demo_call demo_bot "2024-01-01T00:00:00" c); reflexivity.
Defined.

(** X9. When a live bot has sent the request of a call and the client
    raises, the call returns the ERROR result carrying [str(e)], and the one
    request sent is that of the call. *)
Theorem client_error_reported (self : BasicBot) (now : string) (c : call)
    (cl : Client) (e : exn) :
  demo self = false -> client self = Some cl ->
  first_failure (checks c) = None ->
  answer cl c = Raise e ->
  run self now c = (error_result e now, [request_for c]).
Proof.
  intros Hd Hcl. destruct self as [d k s cl']. simpl in Hd, Hcl. subst d cl'.
  destruct c; unfold_run; validators; crunch; cbn [demo client]; crunch;
    try discriminate; intros _;
    cbv beta iota zeta delta
      [answer request_for req_kwargs market_params limit_params
       stop_market_params order_query normal];
    intros ->; reflexivity.
Qed.

Lemma client_error_reported_witness :
  let cl := {| futures_create_order :=
                 fun _ => Raise (mk_exn BinanceAPIException "Invalid symbol.");
               futures_create_oco_order := fun _ => Ok [];
               futures_get_order := fun _ => Ok [];
               futures_account := fun _ => Ok [] |} in
  let bot := {| demo := false; api_key := Some "k"; api_secret := Some "s";
                client := Some cl |} in
  run bot "2024-01-01T00:00:00" (Market "XYZUSDT" "BUY" (NFloat f_0_001))
  = (error_result (mk_exn BinanceAPIException "Invalid symbol.")
       "2024-01-01T00:00:00",
     [request_for (Market "XYZUSDT" "BUY" (NFloat f_0_001))]).
Proof.
  intros cl bot.
  apply (client_error_reported bot "2024-01-01T00:00:00"
           (Market "XYZUSDT" "BUY" (NFloat f_0_001)) cl); reflexivity.
Defined.

(** X10. When a live bot has sent the request of a call and the client
    returns a payload, the result has the keys of a success, holds that
    payload untouched under the payload key of the operation, and has no
    [error] field. *)
Theorem client_payload_untouched (self : BasicBot) (now : string) (c : call)
    (cl : Client) (resp : dict) :
  demo self = false -> client self = Some cl ->
  first_failure (checks c) = None ->
  answer cl c = Ok resp ->
  sent (run self now c) = [request_for c]
  /\ keys (fst (run self now c)) = success_keys c
  /\ field (payload_key c) (run self now c) = Some (VDict resp)
  /\ field "error" (run self now c) = None.
Proof.
  intros Hd Hcl. destruct self as [d k s cl']. simpl in Hd, Hcl. subst d cl'.
  destruct c; unfold_run; validators; crunch; cbn [demo client]; crunch;
    try discriminate; intros _;
    cbv beta iota zeta delta
      [answer request_for req_kwargs market_params limit_params
       stop_market_params order_query normal];
    intros ->; repeat split.
Qed.

Lemma client_payload_untouched_witness :
  let resp := [("orderListId", VInt 7); ("extra", VNone)] in
  let cl := {| futures_create_order := fun _ => Ok [];
               futures_create_oco_order := fun _ => Ok resp;
               futures_get_order := fun _ => Ok [];
               futures_account := fun _ => Ok [] |} in
  let bot := {| demo := false; api_key := Some "k"; api_secret := Some "s";
                client := Some cl |} in
  let c := Oco "btcusdt" "sell" (NInt 1) (NInt 3) (NInt 2) (NInt 1) in
  sent (run bot "2024-01-01T00:00:00" c) = [request_for c]
  /\ keys (fst (run bot "2024-01-01T00:00:00" c)) = success_keys c
  /\ field (payload_key c) (run bot "2024-01-01T00:00:00" c) = Some (VDict resp)
  /\ field "error" (run bot "2024-01-01T00:00:00" c) = None.
Proof.
  intros resp cl bot c.
  apply (client_payload_untouched bot "2024-01-01T00:00:00" c cl resp);
    reflexivity.
Defined.

(** X11. Every result has one of two shapes, whatever the arguments, the
    mode and the client: the three keys of an ERROR result, with status
    "ERROR" and a message under [error]; or the keys of a success of the
    operation, in their fixed order, with no [error] field. Both carry the
    capture time under [timestamp]. *)
Theorem result_shape (self : BasicBot) (now : string) (c : call) :
  field "timestamp" (run self now c) = Some (VStr now)
  /\ ((keys (fst (run self now c)) = error_keys
       /\ field "status" (run self now c) = Some (VStr "ERROR")
       /\ exists msg, field "error" (run self now c) = Some (VStr msg))
      \/ (keys (fst (run self now c)) = success_keys c
          /\ field "error" (run self now c) = None)).
Proof.
  destruct c; unfold_run; unfold field; branches;
    (split; [reflexivity|]);
    first [ left; repeat split; eexists; reflexivity
          | right; split; reflexivity ].
Qed.

(** X12. A result without an [error] field echoes the order as validated:
    its symbol is the trimmed upper-case symbol and ends in "USDT", its side
    is "BUY" or "SELL", and its quantity is the caller's, which is not
    [<= 0]. *)
Theorem success_echoes_intent (self : BasicBot) (now : string) (c : call)
    (symbol side : string) (q : number) :
  intent c = Some (symbol, side, q) ->
  field "error" (run self now c) = None ->
  field "symbol" (run self now c) = Some (VStr (normal symbol))
  /\ endswith (normal symbol) "USDT" = true
  /\ field "side" (run self now c) = Some (VStr (normal side))
  /\ (normal side = "BUY" \/ normal side = "SELL")
  /\ field "quantity" (run self now c) = Some (of_number q)
  /\ le_zero q = false.
Proof.
  destruct c; cbn [intent]; try discriminate; intros [= -> -> ->];
    unfold_run; unfold field, normal; validators; branches;
    try discriminate; intros _; repeat split; assumption.
Qed.

Lemma success_echoes_intent_witness :
  let r := run demo_bot "2024-01-01T00:00:00"
             (Limit " ethusdt" "buy " (NInt 2) (NInt 1800)) in
  field "symbol" r = Some (VStr (normal " ethusdt"))
  /\ endswith (normal " ethusdt") "USDT" = true
  /\ field "side" r = Some (VStr (normal "buy "))
  /\ (normal "buy " = "BUY" \/ normal "buy " = "SELL")
  /\ field "quantity" r = Some (of_number (NInt 2))
  /\ le_zero (NInt 2) = false.
Proof.
  apply (success_echoes_intent demo_bot "2024-01-01T00:00:00"
           (Limit " ethusdt" "buy " (NInt 2) (NInt 1800))); reflexivity.
Defined.

(** * Further properties of the construction *)

(** X13. A bot the constructor returns is in one of two states. A demo bot
    has no client and no credentials, whatever was passed. A live bot has the
    client the client constructor returned for its credentials, and both
    credentials are non-empty strings: each is the parameter when that is a
    non-empty string, the environment variable otherwise. *)
Theorem init_invariant
    (getenv : string -> option string)
    (new_client : option string -> option string -> Exc Client)
    (key secret : option string) (d : bool) (bot : BasicBot) :
  __init__ getenv new_client key secret d = Ok bot ->
  demo bot = d
  /\ (if d then
        client bot = None /\ api_key bot = None /\ api_secret bot = None
      else
        api_key bot
          = (if truthy_opt key then key else getenv "BINANCE_API_KEY")
        /\ api_secret bot
           = (if truthy_opt secret then secret else getenv "BINANCE_API_SECRET")
        /\ truthy_opt (api_key bot) = true
        /\ truthy_opt (api_secret bot) = true
        /\ exists cl, client bot = Some cl
                      /\ new_client (api_key bot) (api_secret bot) = Ok cl).
Proof.
  unfold __init__, py_or. destruct d.
  - intros [= <-]. repeat split.
  - cbv zeta.
    set (k := if truthy_opt key then key else getenv "BINANCE_API_KEY").
    set (s := if truthy_opt secret then secret
              else getenv "BINANCE_API_SECRET").
    destruct (truthy_opt k) eqn:Ek; [|discriminate].
    destruct (truthy_opt s) eqn:Es; [|discriminate]. cbn [negb orb].
    destruct (new_client k s) as [cl | e] eqn:Ecl; [|discriminate].
    intros [= <-]. cbn [demo api_key api_secret client].
    repeat split; trivial. exists cl. split; trivial.
Qed.

Lemma init_invariant_witness :
  let cl := {| futures_create_order := fun _ => Ok [];
               futures_create_oco_order := fun _ => Ok [];
               futures_get_order := fun _ => Ok [];
               futures_account := fun _ => Ok [] |} in
  let getenv := fun name : string =>
                  if String.eqb name "BINANCE_API_SECRET" then Some "from-env"
                  else None in
  let bot := {| demo := false; api_key := Some "given";
                api_secret := Some "from-env"; client := Some cl |} in
  demo bot = false
  /\ api_key bot
       = (if truthy_opt (Some "given") then Some "given"
          else getenv "BINANCE_API_KEY")
  /\ api_secret bot
       = (if truthy_opt (Some "") then Some ""
          else getenv "BINANCE_API_SECRET")
  /\ truthy_opt (api_key bot) = true
  /\ truthy_opt (api_secret bot) = true
  /\ exists cl', client bot = Some cl'
                 /\ (fun _ _ => Ok cl) (api_key bot) (api_secret bot) = Ok cl'.
Proof.
  intros cl getenv bot.
  apply (init_invariant getenv (fun _ _ => Ok cl) (Some "given") (Some "")
           false bot).
  reflexivity.
Defined.

(** X14. With both credentials at hand, a failure of the client constructor
    is the failure of the construction: the same exception leaves
    [__init__]. *)
Theorem init_client_failure
    (getenv : string -> option string)
    (new_client : option string -> option string -> Exc Client)
    (key secret : option string) (e : exn) :
  truthy_opt (py_or key (getenv "BINANCE_API_KEY")) = true ->
  truthy_opt (py_or secret (getenv "BINANCE_API_SECRET")) = true ->
  new_client (py_or key (getenv "BINANCE_API_KEY"))
    (py_or secret (getenv "BINANCE_API_SECRET")) = Raise e ->
  __init__ getenv new_client key secret false = Raise e.
Proof.
  intros Hk Hs He. unfold __init__. cbv zeta. now rewrite Hk, Hs, He.
Qed.

Lemma init_client_failure_witness :
  __init__ (fun _ => Some "placeholder")
    (fun _ _ => Raise (mk_exn OtherException "unexpected keyword argument"))
    None None false
  = Raise (mk_exn OtherException "unexpected keyword argument").
Proof.
  apply init_client_failure; reflexivity.
Defined.

(** * The command line *)

Lemma init_missing
    (getenv : string -> option string)
    (new_client : option string -> option string -> Exc Client)
    (key secret : option string) :
  missing key (getenv "BINANCE_API_KEY") \/
  missing secret (getenv "BINANCE_API_SECRET") ->
  __init__ getenv new_client key secret false
    = Raise (mk_exn ValueError credentials_message).
Proof.
  intros Hmiss. unfold __init__, py_or. cbv zeta.
  destruct Hmiss as [[Hp Hv] | [Hp Hv]]; rewrite Hp, Hv; simpl;
    [reflexivity | now rewrite orb_true_r].
Qed.


(** X16. Without [--demo], when the API key or the API secret is missing
    from both the options and the environment, [main] prints "Error: " and
    the message of the constructor, and sends nothing. *)
Theorem main_missing_credentials
    (getenv : string -> option string)
    (new_client : option string -> option string -> Exc Client)
    (now : string) (args : Args) :
  arg_demo args = false ->
  missing (arg_api_key args) (getenv "BINANCE_API_KEY") \/
  missing (arg_api_secret args) (getenv "BINANCE_API_SECRET") ->
  main getenv new_client now args
  = ([Text (String.append "Error: " credentials_message)], []).
Proof.
  intros Hd Hmiss. unfold main. rewrite Hd.
  now rewrite (init_missing getenv new_client _ _ Hmiss).
Qed.

Lemma main_missing_credentials_witness :
  main (fun _ => None) (fun _ _ => Raise (mk_exn OtherException "unreachable"))
    "2024-01-01T00:00:00"
    {| arg_api_key := Some "key"; arg_api_secret := None; arg_demo := false;
       arg_symbol := Some "BTCUSDT"; arg_side := Some "BUY";
       arg_order_type := Some "MARKET"; arg_quantity := Some f_0_001;
       arg_price := None; arg_stop_price := None; arg_limit_price := None;
       arg_stop_limit_price := None; arg_account_info := false |}
  = ([Text (String.append "Error: " credentials_message)], []).
Proof.
  apply main_missing_credentials; [reflexivity|].
  right. split; reflexivity.
Defined.

(** X17. On the command line a quantity of zero counts as no quantity: once
    the bot is built and [--account-info] is not given, [main] prints that
    symbol, side, order type and quantity are required, calls no operation
    and sends nothing. *)
Theorem main_zero_quantity
    (getenv : string -> option string)
    (new_client : option string -> option string -> Exc Client)
    (now : string) (args : Args) (bot : BasicBot) :
  __init__ getenv new_client (arg_api_key args) (arg_api_secret args)
    (arg_demo args) = Ok bot ->
  arg_account_info args = false ->
  float_truthy (arg_quantity args) = false ->
  main getenv new_client now args = ([Text required_message], []).
Proof.
  intros Hinit Hacc Hq. unfold main. rewrite Hinit, Hacc.
  destruct (arg_symbol args), (arg_side args), (arg_order_type args),
    (arg_quantity args); try reflexivity.
  rewrite Hq, !andb_false_r. reflexivity.
Qed.

Lemma main_zero_quantity_witness :
  main (fun _ => None) (fun _ _ => Raise (mk_exn OtherException "unreachable"))
    "2024-01-01T00:00:00"
    {| arg_api_key := None; arg_api_secret := None; arg_demo := true;
       arg_symbol := Some "BTCUSDT"; arg_side := Some "BUY";
       arg_order_type := Some "MARKET"; arg_quantity := Some (S754_zero true);
       arg_price := None; arg_stop_price := None; arg_limit_price := None;
       arg_stop_limit_price := None; arg_account_info := false |}
  = ([Text required_message], []).
Proof.
  apply (main_zero_quantity _ _ _ _ demo_bot); reflexivity.
Defined.

(** * The window *)

(** The symbol the window passes on, trimmed and then put in upper case, is
    in the form the validator of the bot brings it to. *)
Lemma gui_symbol_normal (s : string) :
  strip (upper (upper (strip s))) = upper (strip s).
Proof. now rewrite upper_idem, strip_upper, strip_idem. Qed.

Lemma gui_symbol_ok (s : string) :
  negb (truthy (upper (strip s))) || negb (endswith (upper (strip s)) "USDT")
    = false ->
  _validate_symbol (upper (strip s)) = Ok (upper (strip s)).
Proof.
  intros H. apply orb_false_iff in H. destruct H as [Ht He].
  unfold _validate_symbol. cbv zeta. rewrite gui_symbol_normal, Ht, He.
  reflexivity.
Qed.

Lemma gui_side_ok (side : string) :
  negb (existsb (String.eqb side) ["BUY"; "SELL"]) = false ->
  _validate_side side = Ok side.
Proof.
  cbn [existsb]. rewrite orb_false_r. intros H. apply negb_false_iff in H.
  apply orb_true_iff in H.
  destruct H as [H | H]; apply String.eqb_eq in H; subst side; reflexivity.
Qed.

Lemma quantity_ok (x : number) :
  le_zero x = false -> _validate_quantity x = Ok x.
Proof. unfold _validate_quantity. now intros ->. Qed.

Lemma price_ok (x : number) : le_zero x = false -> _validate_price x = Ok x.
Proof. unfold _validate_price. now intros ->. Qed.

(** X18. The window rejects every symbol the bot would reject: when
    [_validate_symbol] raises on the text of the symbol field,
    [validate_inputs] returns [False] after showing "Symbol must end with
    USDT", whatever the other fields hold. *)
Theorem gui_rejects_bad_symbol (float_ : string -> Exc spec_float) (f : Form)
    (e : exn) :
  _validate_symbol (symbol_var f) = Raise e ->
  validate_inputs float_ f
  = (false, [ShowError "Validation Error" [VStr "Symbol must end with USDT"]]).
Proof.
  unfold _validate_symbol, validate_inputs. cbv zeta.
  rewrite <- strip_upper.
  destruct (symbol_var f) as [|ch s] eqn:Es; [reflexivity|].
  cbn [truthy negb].
  destruct (endswith (strip (upper (String ch s))) "USDT"); cbn [negb];
    [discriminate|].
  intros _. rewrite orb_true_r. reflexivity.
Qed.

Lemma gui_rejects_bad_symbol_witness :
  validate_inputs (fun _ => Ok f_0_001)
    {| symbol_var := "btcusd"; side_var := "BUY"; quantity_var := "0.001";
       order_type_var := "MARKET"; price_var := "50000";
       stop_price_var := "45000"; oco_limit_price_var := "50000";
       oco_stop_price_var := "45000"; oco_stop_limit_price_var := "44900" |}
  = (false, [ShowError "Validation Error" [VStr "Symbol must end with USDT"]]).
Proof.
  apply (gui_rejects_bad_symbol _ _
           (mk_exn ValueError "Symbol must end with USDT for USDT-M Futures")).
  reflexivity.
Defined.

(** X19. Whatever result the window receives from the bot comes from a call
    that passed the bot's own validation: if [place_order] ends with a result
    to handle, the check of the form showed no box, and the result and the
    requests sent are those of one order-placement call whose validators all
    succeed. An ERROR in it can only come from the client. *)
Theorem gui_results_are_validated (float_ : string -> Exc spec_float)
    (bot : BasicBot) (now : string) (f : Form)
    (boxes : list box) (r : dict) (t : trace) :
  place_order float_ (Some bot) now f = (boxes, Some (HandleResult r), t) ->
  boxes = []
  /\ exists c : call,
       intent c <> None
       /\ first_failure (checks c) = None
       /\ r = fst (run bot now c) /\ t = snd (run bot now c).
Proof.
  unfold place_order.
  destruct (validate_inputs float_ f) as [valid bx] eqn:Hv.
  destruct valid; cbn [negb]; [|discriminate].
  destruct (_place_order_thread float_ bot now f) as [h sent] eqn:Ht.
  intros [= <- -> <-]. split; [reflexivity|].
  revert Hv Ht. unfold validate_inputs, _place_order_thread.
  cbv beta iota zeta delta [and_then reject_if hand_over].
  destruct (negb (truthy (upper (strip (symbol_var f))))
            || negb (endswith (upper (strip (symbol_var f))) "USDT")) eqn:Esym;
    [discriminate|].
  destruct (negb (existsb (String.eqb (side_var f)) ["BUY"; "SELL"])) eqn:Eside;
    [discriminate|].
  pose proof (gui_symbol_ok _ Esym) as Hsym.
  pose proof (gui_side_ok _ Eside) as Hside.
  destruct (float_ (quantity_var f)) as [q | eq];
    [|destruct (isinstance eq [ValueError]); discriminate].
  destruct (le_zero (NFloat q)) eqn:Eq; [discriminate|].
  pose proof (quantity_ok _ Eq) as Hq.
  destruct (String.eqb (order_type_var f) "MARKET") eqn:Emarket.
  { intros _ [= <- <-].
    exists (Market (upper (strip (symbol_var f))) (side_var f) (NFloat q)).
    split; [discriminate|]. cbn [checks run]. rewrite Hsym, Hside, Hq.
    repeat split. }
  destruct (String.eqb (order_type_var f) "LIMIT") eqn:Elimit.
  { destruct (float_ (price_var f)) as [p | ep];
      [|destruct (isinstance ep [ValueError]); discriminate].
    destruct (le_zero (NFloat p)) eqn:Ep; [discriminate|].
    intros _ [= <- <-].
    exists (Limit (upper (strip (symbol_var f))) (side_var f) (NFloat q)
              (NFloat p)).
    split; [discriminate|]. cbn [checks run].
    rewrite Hsym, Hside, Hq, (price_ok _ Ep). repeat split. }
  destruct (String.eqb (order_type_var f) "STOP_MARKET") eqn:Estop.
  { destruct (float_ (stop_price_var f)) as [p | ep];
      [|destruct (isinstance ep [ValueError]); discriminate].
    destruct (le_zero (NFloat p)) eqn:Ep; [discriminate|].
    intros _ [= <- <-].
    exists (StopMarket (upper (strip (symbol_var f))) (side_var f) (NFloat q)
              (NFloat p)).
    split; [discriminate|]. cbn [checks run].
    rewrite Hsym, Hside, Hq, (price_ok _ Ep). repeat split. }
  destruct (String.eqb (order_type_var f) "OCO") eqn:Eoco; [|discriminate].
  destruct (float_ (oco_limit_price_var f)) as [lp | ep];
    [|destruct (isinstance ep [ValueError]); discriminate].
  destruct (float_ (oco_stop_price_var f)) as [sp | ep];
    [|destruct (isinstance ep [ValueError]); discriminate].
  destruct (float_ (oco_stop_limit_price_var f)) as [slp | ep];
    [|destruct (isinstance ep [ValueError]); discriminate].
  destruct (le_zero (NFloat lp) || le_zero (NFloat sp) || le_zero (NFloat slp))
    eqn:Ep; [discriminate|].
  apply orb_false_iff in Ep. destruct Ep as [Ep Eslp].
  apply orb_false_iff in Ep. destruct Ep as [Elp Esp].
  intros _ [= <- <-].
  exists (Oco (upper (strip (symbol_var f))) (side_var f) (NFloat q)
            (NFloat lp) (NFloat sp) (NFloat slp)).
  split; [discriminate|]. cbn [checks run].
  rewrite Hsym, Hside, Hq, !price_ok by assumption. repeat split.
Qed.

Lemma gui_results_are_validated_witness :
  let f := {| symbol_var := " ethusdt "; side_var := "SELL";
              quantity_var := "0.001"; order_type_var := "MARKET";
              price_var := ""; stop_price_var := "";
              oco_limit_price_var := ""; oco_stop_price_var := "";
              oco_stop_limit_price_var := "" |} in
  let r := place_market_order demo_bot "2024-01-01T00:00:00" "ETHUSDT" "SELL"
             (NFloat f_0_001) in
  @nil box = []
  /\ exists c : call,
       intent c <> None
       /\ first_failure (checks c) = None
       /\ fst r = fst (run demo_bot "2024-01-01T00:00:00" c)
       /\ snd r = snd (run demo_bot "2024-01-01T00:00:00" c).
Proof.
  intros f r.
  apply (gui_results_are_validated (fun _ => Ok f_0_001) demo_bot
           "2024-01-01T00:00:00" f).
  reflexivity.
Defined.

(** X20. The window reads the [status] field of a result: for every market,
    limit and stop-market order a demo bot has placed it shows "Order
    failed" with the message "Unknown error", since the [status] of those
    results is the remote status and they have no [error] field; for every
    OCO order a demo bot has placed it shows "Order placed successfully". *)
Theorem gui_reading_of_demo_results (self : BasicBot) (now : string)
    (c : call) :
  demo self = true ->
  first_failure (checks c) = None ->
  match c with
  | Market _ _ _ | Limit _ _ _ _ | StopMarket _ _ _ _ =>
      _handle_order_result (fst (run self now c))
      = ("Order failed",
         ShowError "Error"
           [VStr (String.append "Order failed:" newline); VStr "Unknown error"])
  | Oco _ _ _ _ _ _ =>
      _handle_order_result (fst (run self now c))
      = ("Order placed successfully",
         ShowInfo "Success" [VStr "Order placed successfully!"])
  | OrderStatus _ _ | AccountInfo => True
  end.
Proof.
  intros Hd. destruct self as [d k s cl]. simpl in Hd. subst d.
  destruct c; trivial; unfold_run; cbn [demo]; validators; crunch;
    first [discriminate | intros _; reflexivity].
Qed.

Lemma gui_reading_of_demo_results_witness :
  _handle_order_result
    (fst (run demo_bot "2024-01-01T00:00:00"
            (Limit "BTCUSDT" "BUY" (NFloat f_0_001) (NInt 50000))))
  = ("Order failed",
     ShowError "Error"
       [VStr (String.append "Order failed:" newline); VStr "Unknown error"]).
Proof.
  apply (gui_reading_of_demo_results demo_bot "2024-01-01T00:00:00"
           (Limit "BTCUSDT" "BUY" (NFloat f_0_001) (NInt 50000)));
    reflexivity.
Defined.

(** X21. The window, unlike the bot, relates the OCO prices to the side: a
    form for an OCO order that [validate_inputs] accepts has, for the side
    BUY, a limit price that is not [<=] the stop price and, for the side
    SELL, a limit price that is not [>=] the stop price. *)
Theorem gui_oco_price_order (float_ : string -> Exc spec_float) (f : Form)
    (boxes : list box) (limit_price stop_price : spec_float) :
  validate_inputs float_ f = (true, boxes) ->
  order_type_var f = "OCO" ->
  float_ (oco_limit_price_var f) = Ok limit_price ->
  float_ (oco_stop_price_var f) = Ok stop_price ->
  (side_var f = "BUY" /\ float_le limit_price stop_price = false)
  \/ (side_var f = "SELL" /\ float_le stop_price limit_price = false).
Proof.
  intros Hv Ht Hlp Hsp. revert Hv. unfold validate_inputs.
  cbv beta iota zeta delta [and_then reject_if]. rewrite Ht, Hlp, Hsp.
  cbn [String.eqb Ascii.eqb Bool.eqb].
  destruct (negb (truthy _) || _); [discriminate|].
  destruct (negb (existsb (String.eqb (side_var f)) ["BUY"; "SELL"])) eqn:Eside;
    [discriminate|].
  destruct (float_ (quantity_var f)) as [q | eq];
    [|destruct (isinstance eq [ValueError]); discriminate].
  destruct (le_zero (NFloat q)); [discriminate|].
  destruct (float_ (oco_stop_limit_price_var f)) as [slp | ep];
    [|destruct (isinstance ep [ValueError]); discriminate].
  destruct (_ || _ || _); [discriminate|].
  revert Eside. cbn [existsb]. rewrite orb_false_r.
  destruct (String.eqb_spec (side_var f) "BUY") as [Eb | Eb].
  - intros _. destruct (float_le limit_price stop_price); [discriminate|].
    intros _. left. split; trivial.
  - cbn [orb]. intros Es. apply negb_false_iff, String.eqb_eq in Es.
    destruct (float_le stop_price limit_price); [discriminate|].
    intros _. right. split; trivial.
Qed.

Lemma gui_oco_price_order_witness :
  let f := {| symbol_var := "BTCUSDT"; side_var := "BUY";
              quantity_var := "1"; order_type_var := "OCO";
              price_var := ""; stop_price_var := "";
              oco_limit_price_var := "2"; oco_stop_price_var := "1";
              oco_stop_limit_price_var := "1" |} in
  let float_ := fun s : string =>
                  if String.eqb s "2"
                  then Ok (S754_finite false 4503599627370496 (-51))
                  else Ok (S754_finite false 4503599627370496 (-52)) in
  (side_var f = "BUY"
   /\ float_le (S754_finite false 4503599627370496 (-51))
        (S754_finite false 4503599627370496 (-52)) = false)
  \/ (side_var f = "SELL"
      /\ float_le (S754_finite false 4503599627370496 (-52))
           (S754_finite false 4503599627370496 (-51)) = false).
Proof.
  intros f float_.
  apply (gui_oco_price_order float_ f []); reflexivity.
Defined.
